(** * DIT4192 S/PDIF transmitter set-up firmware (spdif2digitech.c)

    The firmware runs on an AVR core with a Universal Serial Interface (USI).
    It talks to the DIT4192 over a three-wire serial port: a byte shifter
    [SPISend], a register transport [DIT4192WriteReg] / [DIT4192ReadReg] on
    top of it, and [main], which configures two registers and parks the core.

    The C code is embedded over an abstract micro-controller ([Device]): I/O
    registers are read and written through the interface, the polling loop of
    the byte shifter takes a bound on its iterations, and a computation either
    returns ([Done]) or never does ([Hang]).  The device the firmware is built
    for is modelled by [tiny_usi], whose pins are watched by a bus recorder. *)

From Stdlib Require Import ZArith List Bool Lia.
Import ListNotations.

Local Open Scope Z_scope.

(** ** Bytes and bits *)

(** An 8-bit I/O register keeps the low eight bits of what is stored. *)
Definition u8 (x : Z) : Z := Z.land x 255.

(** avr-libc's [_BV(bit)] is [(1 << (bit))]. *)
Definition _BV (bit : Z) : Z := Z.shiftl 1 bit.

(** Bit numbers of the device header [<avr/io.h>] that the firmware uses.
    The header belongs to the tool chain; the values are those of the AVR
    parts with a USI on port B (pin [PBn] is bit [n]). *)
Module Io.
Definition PB1 : Z := 1.
Definition PB2 : Z := 2.
Definition PB4 : Z := 4.
(* USISR *)
Definition USIOIF : Z := 6.
(* USICR *)
Definition USIWM1 : Z := 5.
Definition USIWM0 : Z := 4.
Definition USICS1 : Z := 3.
Definition USICS0 : Z := 2.
Definition USICLK : Z := 1.
Definition USITC : Z := 0.
(* MCUCR *)
Definition SE : Z := 5.
Definition SM1 : Z := 4.
Definition SM0 : Z := 3.
Definition SLEEP_MODE_PWR_DOWN : Z := _BV SM1.
End Io.
Import Io.

(** The pin assignment of the source (lines 6-8). *)
Definition DIT4192_CS : Z := PB4.
Definition SCK : Z := PB2.
Definition DOUT : Z := PB1.

(** DIT4192 register addresses and bit numbers (lines 29-149). *)
Definition FACTORY_REG : Z := 0x00.
Definition TRANSMITTER_CONTROL : Z := 0x01.
Definition POWER_DOWN_AND_CLOCK_CONTROL : Z := 0x02.
Definition PDN : Z := 0.
Definition CLK0 : Z := 1.
Definition CLK1 : Z := 2.
Definition RST : Z := 3.
Definition AUDIO_SERIAL_PORT_CONTROL : Z := 0x03.
Definition MS : Z := 0.
Definition SCLKR : Z := 1.
Definition WLEN0 : Z := 2.
Definition WLEN1 : Z := 3.
Definition JUS : Z := 4.
Definition DELAY : Z := 5.
Definition ISCLK : Z := 6.
Definition ISYNC : Z := 7.

(** ** The micro-controller as the firmware sees it *)

(** The I/O registers the firmware touches. *)
Inductive ioreg : Type := DDRB | PORTB | USIDR | USISR | USICR | MCUCR.

(** A device is a state with loads and stores of I/O registers and the three
    core operations [main] uses: [cli], the [sleep] instruction (which either
    retires, [Some], or stops the core for good, [None]) and the busy wait
    [_delay_ms]. Loads of these registers have no side effect. *)
Class Device : Type := {
  mcu : Type;
  io_in : ioreg -> mcu -> Z;
  io_out : ioreg -> Z -> mcu -> mcu;
  cpu_cli : mcu -> mcu;
  cpu_sleep : mcu -> option mcu;
  cpu_delay_ms : Z -> mcu -> mcu
}.

(** ** Computations *)

Section Firmware.

Context {D : Device}.

(** A computation returns a value in a new state, or is still running when
    its loops have used up their iterations (or the core has stopped); the
    state it has reached is kept. *)
Inductive outcome (A : Type) : Type :=
| Done (a : A) (s : mcu)
| Hang (s : mcu).
Arguments Done {A} a s.
Arguments Hang {A} s.

Definition M (A : Type) : Type := mcu -> outcome A.

Definition ret {A} (a : A) : M A := fun s => Done a s.

Definition bind {A B} (m : M A) (f : A -> M B) : M B :=
  fun s => match m s with
           | Done a s' => f a s'
           | Hang s' => Hang s'
           end.

Notation "x <- m ;; k" := (bind m (fun x => k))
  (at level 61, m at next level, right associativity).
Notation "m ;; k" := (bind m (fun _ => k))
  (at level 61, right associativity).

Definition load (r : ioreg) : M Z := fun s => Done (io_in r s) s.
Definition store (r : ioreg) (v : Z) : M unit := fun s => Done tt (io_out r v s).

(** [while (cond) body], at most [fuel] iterations. *)
Fixpoint while (fuel : nat) (cond : M bool) (body : M unit) : M unit :=
  match fuel with
  | O => fun s => Hang s
  | S fuel' =>
      c <- cond ;;
      if c then body ;; while fuel' cond body else ret tt
  end.

(** ** The firmware *)

(** [#define SELECT PORTB &= ~_BV(DIT4192_CS);] *)
Definition SELECT : M unit :=
  p <- load PORTB ;; store PORTB (Z.land p (Z.lnot (_BV DIT4192_CS))).

(** [#define DESELECT PORTB |= _BV(DIT4192_CS);] *)
Definition DESELECT : M unit :=
  p <- load PORTB ;; store PORTB (Z.lor p (_BV DIT4192_CS)).

(** The value stored to [USICR] on every turn of the polling loop. *)
Definition usi_strobe : Z :=
  Z.lor (Z.lor (Z.lor (_BV USIWM0) (_BV USICS1)) (_BV USICLK)) (_BV USITC).

(** [!(USISR & _BV(USIOIF))] *)
Definition usi_busy : M bool :=
  v <- load USISR ;; ret (Z.land v (_BV USIOIF) =? 0).

(** [uint8_t SPISend (uint8_t b)] (lines 183-195). *)
Definition SPISend (fuel : nat) (b : Z) : M Z :=
  store USIDR b ;;
  store USISR (_BV USIOIF) ;;
  while fuel usi_busy (store USICR usi_strobe) ;;
  load USIDR.

(** [void DIT4192WriteReg (uint8_t reg, uint8_t value)] (lines 198-204). *)
Definition DIT4192WriteReg (fuel : nat) (reg value : Z) : M unit :=
  SELECT ;;
  SPISend fuel (Z.land reg 0x3f) ;;
  SPISend fuel 0xff ;;
  SPISend fuel value ;;
  DESELECT.

(** [uint8_t DIT4192ReadReg (uint8_t reg)] (lines 206-214). *)
Definition DIT4192ReadReg (fuel : nat) (reg : Z) : M Z :=
  SELECT ;;
  SPISend fuel (Z.lor (Z.land reg 0x3f) 0x80) ;;
  SPISend fuel 0xff ;;
  value <- SPISend fuel 0xff ;;
  DESELECT ;;
  ret value.

(** avr-libc's [cli ()], [_delay_ms (ms)] and [sleep_cpu ()]. *)
Definition cli : M unit := fun s => Done tt (cpu_cli s).
Definition _delay_ms (ms : Z) : M unit := fun s => Done tt (cpu_delay_ms ms s).
Definition sleep_cpu : M unit :=
  fun s => match cpu_sleep s with
           | Some s' => Done tt s'
           | None => Hang s
           end.

(** avr-libc's [set_sleep_mode (mode)]:
    [MCUCR = (MCUCR & ~(_BV(SM0) | _BV(SM1))) | (mode)]. *)
Definition set_sleep_mode (mode : Z) : M unit :=
  m <- load MCUCR ;;
  store MCUCR (Z.lor (Z.land m (Z.lnot (Z.lor (_BV SM0) (_BV SM1)))) mode).

(** [int main ()] (lines 157-180).  The last statement is [while (1);]:
    control never leaves it, so [main] has no [Done] outcome of its own. *)
Definition main (fuel : nat) : M Z :=
  store DDRB (Z.lor (Z.lor (_BV DIT4192_CS) (_BV SCK)) (_BV DOUT)) ;;
  DESELECT ;;
  _delay_ms 5 ;;
  DIT4192WriteReg fuel AUDIO_SERIAL_PORT_CONTROL (Z.lor (_BV JUS) (_BV WLEN0)) ;;
  DIT4192WriteReg fuel POWER_DOWN_AND_CLOCK_CONTROL (_BV CLK0) ;;
  cli ;;
  set_sleep_mode SLEEP_MODE_PWR_DOWN ;;
  sleep_cpu ;;
  while fuel (ret true) (ret tt) ;;
  ret 0.

(** ** A harness for sequences of transactions *)

(** One register access, as a caller of the transport issues it. *)
Inductive transfer : Type :=
| WriteOp (reg value : Z)
| ReadOp (reg : Z).

Definition run_transfer (fuel : nat) (t : transfer) : M unit :=
  match t with
  | WriteOp reg value => DIT4192WriteReg fuel reg value
  | ReadOp reg => DIT4192ReadReg fuel reg ;; ret tt
  end.

Fixpoint run_transfers (fuel : nat) (ts : list transfer) : M unit :=
  match ts with
  | [] => ret tt
  | t :: ts' => run_transfer fuel t ;; run_transfers fuel ts'
  end.

(** The state after [n] stores of the strobe value to [USICR]. *)
Fixpoint strobes (n : nat) (s : mcu) : mcu :=
  match n with
  | O => s
  | S n' => strobes n' (io_out USICR usi_strobe s)
  end.

(** The completion flag as the polling loop tests it. *)
Definition completed (s : mcu) : bool :=
  negb (Z.land (io_in USISR s) (_BV USIOIF) =? 0).

End Firmware.

Arguments Done {D A} a s.
Arguments Hang {D A} s.

(** ** The device: an AVR core with a USI on port B *)

(** The hardware is not part of the source; this is the environment the
    firmware runs in, written after the USI chapter of the AVR data sheet
    (parts with USCK on PB2 and DO on PB1): the serial data register, the
    4-bit counter with its overflow flag, the clock toggled through [USITC],
    and the sleep enable bit.  The recorder watches the port latches, that
    is the pins as they are driven once their direction bits are set, which
    is the first thing [main] does. *)

(** What the bus recorder sees on the pins of the serial port.  Chip-select
    is active low: [false] is asserted.  [ChipSelect] is noted at every
    store to [PORTB], the clock events at every edge of SCK with the levels
    of chip-select, DO and DI at that moment, [Idle] for a busy wait. *)
Inductive wire : Type :=
| ChipSelect (level : bool)
| ClockRise (cs mosi miso : bool)
| ClockFall (cs : bool)
| Idle (ms : Z).

(** Registers of the core, the two things the outside world decides (the
    level of the DI pin during each bit time, and whether an effective sleep
    is ever woken), and the recording.  The status register [USISR] is kept
    as its overflow flag and its 4-bit counter; the flags of the two-wire mode
    read as zero. *)
Record avr : Type := {
  ddrb : Z;
  portb : Z;
  usidr : Z;
  usicr : Z;
  usicnt : Z;
  usioif : bool;
  mcucr : Z;
  sreg_i : bool;
  di_line : nat -> bool;
  wakes : bool;
  shifted : nat;
  wire_log : list wire
}.

Definition set_ddrb (v : Z) (s : avr) : avr :=
  {| ddrb := v; portb := portb s; usidr := usidr s; usicr := usicr s;
     usicnt := usicnt s; usioif := usioif s; mcucr := mcucr s;
     sreg_i := sreg_i s; di_line := di_line s; wakes := wakes s;
     shifted := shifted s; wire_log := wire_log s |}.

Definition set_portb (v : Z) (s : avr) : avr :=
  {| ddrb := ddrb s; portb := v; usidr := usidr s; usicr := usicr s;
     usicnt := usicnt s; usioif := usioif s; mcucr := mcucr s;
     sreg_i := sreg_i s; di_line := di_line s; wakes := wakes s;
     shifted := shifted s; wire_log := wire_log s |}.

Definition set_usidr (v : Z) (s : avr) : avr :=
  {| ddrb := ddrb s; portb := portb s; usidr := v; usicr := usicr s;
     usicnt := usicnt s; usioif := usioif s; mcucr := mcucr s;
     sreg_i := sreg_i s; di_line := di_line s; wakes := wakes s;
     shifted := shifted s; wire_log := wire_log s |}.

Definition set_usicr (v : Z) (s : avr) : avr :=
  {| ddrb := ddrb s; portb := portb s; usidr := usidr s; usicr := v;
     usicnt := usicnt s; usioif := usioif s; mcucr := mcucr s;
     sreg_i := sreg_i s; di_line := di_line s; wakes := wakes s;
     shifted := shifted s; wire_log := wire_log s |}.

Definition set_counter (c : Z) (f : bool) (s : avr) : avr :=
  {| ddrb := ddrb s; portb := portb s; usidr := usidr s; usicr := usicr s;
     usicnt := c; usioif := f; mcucr := mcucr s;
     sreg_i := sreg_i s; di_line := di_line s; wakes := wakes s;
     shifted := shifted s; wire_log := wire_log s |}.

Definition set_mcucr (v : Z) (s : avr) : avr :=
  {| ddrb := ddrb s; portb := portb s; usidr := usidr s; usicr := usicr s;
     usicnt := usicnt s; usioif := usioif s; mcucr := v;
     sreg_i := sreg_i s; di_line := di_line s; wakes := wakes s;
     shifted := shifted s; wire_log := wire_log s |}.

Definition set_sreg_i (f : bool) (s : avr) : avr :=
  {| ddrb := ddrb s; portb := portb s; usidr := usidr s; usicr := usicr s;
     usicnt := usicnt s; usioif := usioif s; mcucr := mcucr s;
     sreg_i := f; di_line := di_line s; wakes := wakes s;
     shifted := shifted s; wire_log := wire_log s |}.

Definition set_shifted (n : nat) (s : avr) : avr :=
  {| ddrb := ddrb s; portb := portb s; usidr := usidr s; usicr := usicr s;
     usicnt := usicnt s; usioif := usioif s; mcucr := mcucr s;
     sreg_i := sreg_i s; di_line := di_line s; wakes := wakes s;
     shifted := n; wire_log := wire_log s |}.

Definition record (w : wire) (s : avr) : avr :=
  {| ddrb := ddrb s; portb := portb s; usidr := usidr s; usicr := usicr s;
     usicnt := usicnt s; usioif := usioif s; mcucr := mcucr s;
     sreg_i := sreg_i s; di_line := di_line s; wakes := wakes s;
     shifted := shifted s; wire_log := wire_log s ++ [w] |}.

(** Pin levels.  Chip-select and clock show the port latch; in three-wire
    mode DO shows the top bit of the data register. *)
Definition cs_pin (s : avr) : bool := Z.testbit (portb s) PB4.
Definition sck_pin (s : avr) : bool := Z.testbit (portb s) PB2.
Definition do_pin (s : avr) : bool :=
  if Z.testbit (usicr s) USIWM0 && negb (Z.testbit (usicr s) USIWM1)
  then Z.testbit (usidr s) 7
  else Z.testbit (portb s) PB1.

(** The data register shifts left by one and takes DI into bit 0. *)
Definition shift_in (u : Z) (d : bool) : Z :=
  u8 (Z.lor (Z.shiftl u 1) (Z.b2z d)).

Definition usi_shift (s : avr) : avr :=
  set_shifted (S (shifted s))
    (set_usidr (shift_in (usidr s) (di_line s (shifted s))) s).

(** The 4-bit counter counts up; going from 15 to 0 it raises [USIOIF]. *)
Definition usi_count (s : avr) : avr :=
  let c := usicnt s + 1 in
  if 16 <=? c then set_counter 0 true s else set_counter c (usioif s) s.

(** An edge on the clock pin, taken after the port latch has changed.  With an
    external clock selected ([USICS1]) the data register shifts on the edge
    [USICS0] selects (clear: rising), and the counter counts both edges
    unless [USICLK] hands it to the [USITC] strobe. *)
Definition sck_edge (s : avr) : avr :=
  let rising := sck_pin s in
  let s1 := record (if rising
                    then ClockRise (cs_pin s) (do_pin s) (di_line s (shifted s))
                    else ClockFall (cs_pin s)) s in
  if Z.testbit (usicr s) USICS1 then
    let s2 := if Bool.eqb rising (negb (Z.testbit (usicr s) USICS0))
              then usi_shift s1 else s1 in
    if Z.testbit (usicr s) USICLK then s2 else usi_count s2
  else s1.

(** A store to [PORTB]: the recorder notes the level driven on chip-select,
    and a change of the clock bit is an edge. *)
Definition portb_store (v : Z) (s : avr) : avr :=
  let s1 := record (ChipSelect (Z.testbit v PB4)) (set_portb (u8 v) s) in
  if Bool.eqb (sck_pin s1) (sck_pin s) then s1 else sck_edge s1.

(** A store to [USISR]: the counter takes the low four bits; writing a one to
    [USIOIF] clears the flag. *)
Definition usisr_store (v : Z) (s : avr) : avr :=
  set_counter (Z.land v 15)
              (if Z.testbit v USIOIF then false else usioif s) s.

(** A store to [USICR]: the mode bits are kept; [USITC] toggles the clock
    latch, which is an edge, and clocks the counter when it is the counter's
    source; with no clock source selected [USICLK] is the software strobe of
    both the data register and the counter. *)
Definition usicr_store (v : Z) (s : avr) : avr :=
  let s1 := set_usicr (u8 v) s in
  if Z.testbit v USITC then
    let s2 := sck_edge (set_portb (Z.lxor (portb s1) (_BV PB2)) s1) in
    if Z.testbit v USICS1 && Z.testbit v USICLK then usi_count s2 else s2
  else if negb (Z.testbit v USICS1) && negb (Z.testbit v USICS0)
          && Z.testbit v USICLK
  then usi_count (usi_shift s1)
  else s1.

Definition avr_in (r : ioreg) (s : avr) : Z :=
  match r with
  | DDRB => ddrb s
  | PORTB => portb s
  | USIDR => usidr s
  | USISR => Z.lor (if usioif s then _BV USIOIF else 0) (usicnt s)
  | USICR => Z.land (usicr s) 0xfc
  | MCUCR => mcucr s
  end.

Definition avr_out (r : ioreg) (v : Z) (s : avr) : avr :=
  match r with
  | DDRB => set_ddrb (u8 v) s
  | PORTB => portb_store v s
  | USIDR => set_usidr (u8 v) s
  | USISR => usisr_store v s
  | USICR => usicr_store v s
  | MCUCR => set_mcucr (u8 v) s
  end.

(** The [sleep] instruction takes effect only with [SE] set in [MCUCR];
    then the core stops, and runs on only if something wakes it. *)
Definition avr_sleep (s : avr) : option avr :=
  if Z.testbit (mcucr s) SE
  then (if wakes s then Some s else None)
  else Some s.

#[export] Instance tiny_usi : Device := {|
  mcu := avr;
  io_in := avr_in;
  io_out := avr_out;
  cpu_cli := set_sreg_i false;
  cpu_sleep := avr_sleep;
  cpu_delay_ms := fun ms => record (Idle ms)
|}.

(** The core after reset, wired to a DI line and a wake-up behaviour. *)
Definition power_on (di : nat -> bool) (wake : bool) : avr :=
  {| ddrb := 0; portb := 0; usidr := 0; usicr := 0; usicnt := 0;
     usioif := false; mcucr := 0; sreg_i := false; di_line := di;
     wakes := wake; shifted := 0; wire_log := [] |}.

(** A serial unit that never signals completion: stores are lost and every
    register reads as zero. *)
Definition dead_usi : Device := {|
  mcu := unit;
  io_in := fun _ _ => 0;
  io_out := fun _ _ s => s;
  cpu_cli := fun s => s;
  cpu_sleep := fun s => Some s;
  cpu_delay_ms := fun _ s => s
|}.

(** ** What a transfer looks like on the wire *)

(** The sixteen clock edges of one byte: bit [7 - k] of [b] is on DO at the
    [k]-th rising edge, while DI carries [di (k + n0)]. *)
Definition exchange_wire (cs : bool) (b : Z) (di : nat -> bool) (n0 : nat)
  : list wire :=
  flat_map (fun k => [ClockRise cs (Z.testbit b (7 - Z.of_nat k))
                                   (di (k + n0)%nat);
                      ClockFall cs])
           (seq 0 8).

(** The value of a run of bits, most significant first. *)
Definition byte_msb_first (bits : list bool) : Z :=
  fold_left (fun acc d => 2 * acc + Z.b2z d) bits 0.

(** The byte DI carries during the eight bit times from [n0]. *)
Definition received (di : nat -> bool) (n0 : nat) : Z :=
  byte_msb_first (map (fun k => di (k + n0)%nat) (seq 0 8)).

(** A whole register access on the wire: select, three bytes, deselect. *)
Definition transaction_wire (b0 b1 b2 : Z) (di : nat -> bool) (n0 : nat)
  : list wire :=
  ChipSelect false
    :: exchange_wire false b0 di n0
    ++ exchange_wire false b1 di (8 + n0)
    ++ exchange_wire false b2 di (16 + n0)
    ++ [ChipSelect true].

(** ** The serial unit under the strobe of the polling loop *)

(** One step of the 4-bit counter with its overflow flag. *)
Definition bump (cf : Z * bool) : Z * bool :=
  let c := fst cf + 1 in
  if 16 <=? c then (0, true) else (c, snd cf).

(** The data register after the bit times [ks], starting from [u]. *)
Definition shifts (u : Z) (di : nat -> bool) (ks : list nat) : Z :=
  fold_left (fun acc k => shift_in acc (di k)) ks u.

(** The clock edges of the bit times [ks] with the data register at [u]. *)
Fixpoint clock_bits (cs : bool) (u : Z) (di : nat -> bool) (ks : list nat)
  : list wire :=
  match ks with
  | [] => []
  | k :: ks' =>
      ClockRise cs (Z.testbit u 7) (di k) :: ClockFall cs
        :: clock_bits cs (shift_in u (di k)) di ks'
  end.

(** The device after [k] whole clock pulses driven by the strobe. *)
Definition clocked (k : nat) (s : avr) : avr :=
  {| ddrb := ddrb s; portb := portb s;
     usidr := shifts (usidr s) (di_line s) (seq (shifted s) k);
     usicr := usi_strobe;
     usicnt := fst (Nat.iter (2 * k) bump (usicnt s, usioif s));
     usioif := snd (Nat.iter (2 * k) bump (usicnt s, usioif s));
     mcucr := mcucr s; sreg_i := sreg_i s; di_line := di_line s;
     wakes := wakes s; shifted := (k + shifted s)%nat;
     wire_log := wire_log s
                 ++ clock_bits (cs_pin s) (usidr s) (di_line s)
                               (seq (shifted s) k) |}.

(** The device after the byte shifter has exchanged [b]. *)
Definition after_exchange (b : Z) (s : avr) : avr :=
  {| ddrb := ddrb s; portb := portb s;
     usidr := received (di_line s) (shifted s);
     usicr := usi_strobe; usicnt := 0; usioif := true;
     mcucr := mcucr s; sreg_i := sreg_i s; di_line := di_line s;
     wakes := wakes s; shifted := (8 + shifted s)%nat;
     wire_log := wire_log s
                 ++ exchange_wire (cs_pin s) b (di_line s) (shifted s) |}.

(** The state in which the byte shifter enters its polling loop. *)
Definition armed (b : Z) (s : avr) : avr :=
  avr_out USISR (_BV USIOIF) (avr_out USIDR b s).

(** The device after [SELECT] and after [DESELECT]. *)
Definition selected (s : avr) : avr :=
  record (ChipSelect false)
    (set_portb (u8 (Z.land (portb s) (Z.lnot (_BV DIT4192_CS)))) s).

Definition deselected (s : avr) : avr :=
  record (ChipSelect true)
    (set_portb (u8 (Z.lor (portb s) (_BV DIT4192_CS))) s).

(** The device after a whole register access that sends [b0], [b1], [b2]. *)
Definition after_transaction (b0 b1 b2 : Z) (s : avr) : avr :=
  {| ddrb := ddrb s;
     portb := Z.lor (u8 (portb s)) (_BV DIT4192_CS);
     usidr := received (di_line s) (16 + shifted s);
     usicr := usi_strobe; usicnt := 0; usioif := true;
     mcucr := mcucr s; sreg_i := sreg_i s; di_line := di_line s;
     wakes := wakes s; shifted := (24 + shifted s)%nat;
     wire_log := wire_log s
                 ++ transaction_wire b0 b1 b2 (di_line s) (shifted s) |}.

(** The device when [main] has reached its last statement. *)
Definition parked (s : avr) : avr :=
  set_mcucr
    (u8 (Z.lor (Z.land (mcucr s) (Z.lnot (Z.lor (_BV SM0) (_BV SM1))))
               SLEEP_MODE_PWR_DOWN))
    (set_sreg_i false
       (after_transaction (Z.land POWER_DOWN_AND_CLOCK_CONTROL 0x3f) 0xff
          (_BV CLK0)
          (after_transaction (Z.land AUDIO_SERIAL_PORT_CONTROL 0x3f) 0xff
             (Z.lor (_BV JUS) (_BV WLEN0))
             (record (Idle 5)
                (deselected
                   (set_ddrb
                      (u8 (Z.lor (Z.lor (_BV DIT4192_CS) (_BV SCK))
                                 (_BV DOUT)))
                      s)))))).

(** A bench set-up: the core after reset with a DI line that alternates. *)
Definition bench : avr := power_on Nat.even false.

(** ** Reading the recording *)

(** The bits seen on DO, and on DI, at the rising clock edges. *)
Definition mosi_bits (l : list wire) : list bool :=
  flat_map (fun w => match w with ClockRise _ m _ => [m] | _ => [] end) l.

Definition miso_bits (l : list wire) : list bool :=
  flat_map (fun w => match w with ClockRise _ _ d => [d] | _ => [] end) l.

(** A run of bits cut into bytes, each most significant bit first. *)
Fixpoint bytes_msb_first (bits : list bool) : list Z :=
  match bits with
  | b7 :: b6 :: b5 :: b4 :: b3 :: b2 :: b1 :: b0 :: rest =>
      byte_msb_first [b7; b6; b5; b4; b3; b2; b1; b0] :: bytes_msb_first rest
  | _ => []
  end.

(** The bytes the master sent, and the bytes it was sent. *)
Definition sent (l : list wire) : list Z := bytes_msb_first (mosi_bits l).
Definition answered (l : list wire) : list Z := bytes_msb_first (miso_bits l).

(** The select windows of a recording.  A window opens when chip-select is
    driven low and closes when it is driven high after exactly 24 clock
    pulses, every edge of which saw chip-select low.  Clock edges outside a
    window, a second assertion inside one and a deassertion outside one are
    refused.  The result is the number of windows. *)
Fixpoint select_windows (open : option nat) (closed : nat) (l : list wire)
  : option nat :=
  match l with
  | [] => match open with None => Some closed | Some _ => None end
  | w :: l' =>
      match w, open with
      | ChipSelect false, None => select_windows (Some 0%nat) closed l'
      | ChipSelect true, Some n =>
          if (n =? 24)%nat then select_windows None (S closed) l' else None
      | ClockRise false _ _, Some n => select_windows (Some (S n)) closed l'
      | ClockFall false, Some n => select_windows (Some n) closed l'
      | Idle _, _ => select_windows open closed l'
      | _, _ => None
      end
  end.

(** The sixteen clock edges of one byte when the clock line was high on
    entry: every pulse falls first and rises after. *)
Definition exchange_wire_inverted (cs : bool) (b : Z) (di : nat -> bool)
    (n0 : nat) : list wire :=
  flat_map (fun k => [ClockFall cs;
                      ClockRise cs (Z.testbit b (7 - Z.of_nat k))
                                   (di (k + n0)%nat)])
           (seq 0 8).

(** ** Bits *)

Lemma u8_testbit (x k : Z) :
  Z.testbit (u8 x) k = (k <? 8) && Z.testbit x k.
Proof.
  unfold u8. change 255 with (Z.ones 8).
  rewrite Z.land_ones by lia. apply Z.testbit_mod_pow2. lia.
Qed.

Lemma u8_mod (x : Z) : u8 x = x mod 256.
Proof.
  unfold u8. change 255 with (Z.ones 8). now rewrite Z.land_ones by lia.
Qed.

Lemma u8_small (x : Z) : 0 <= x < 256 -> u8 x = x.
Proof. intro H. rewrite u8_mod. now apply Z.mod_small. Qed.

Lemma shift_in_testbit (u : Z) (d : bool) (j : Z) :
  1 <= j < 8 -> Z.testbit (shift_in u d) j = Z.testbit u (j - 1).
Proof.
  intro Hj. unfold shift_in.
  rewrite u8_testbit, Z.lor_spec, Z.shiftl_spec by lia.
  replace (j <? 8) with true by (symmetry; apply Z.ltb_lt; lia).
  destruct d; simpl.
  - rewrite (Z.bits_above_log2 1 j) by (simpl; lia). apply orb_false_r.
  - rewrite Z.bits_0. apply orb_false_r.
Qed.

Lemma lor_double_bit (a : Z) (d : bool) :
  Z.lor (2 * a) (Z.b2z d) = 2 * a + Z.b2z d.
Proof.
  assert (H : Z.land (2 * a) (Z.b2z d) = 0).
  { apply Z.bits_inj'. intros n Hn. rewrite Z.land_spec, Z.bits_0.
    destruct (Z.eq_dec n 0) as [-> | Hne].
    - now rewrite Z.testbit_even_0.
    - destruct d; simpl Z.b2z.
      + rewrite (Z.bits_above_log2 1 n) by (simpl; lia). apply andb_false_r.
      + rewrite Z.bits_0. apply andb_false_r. }
  rewrite <- Z.lxor_lor by exact H.
  symmetry. now apply Z.add_nocarry_lxor.
Qed.

Lemma shift_in_mod (u : Z) (d : bool) :
  shift_in u d = (2 * u + Z.b2z d) mod 256.
Proof.
  unfold shift_in. rewrite u8_mod. f_equal.
  rewrite Z.shiftl_mul_pow2 by lia. change (2 ^ 1) with 2.
  rewrite (Z.mul_comm u 2). apply lor_double_bit.
Qed.

Lemma byte_msb_first_acc (bits : list bool) (acc : Z) :
  fold_left (fun a d => 2 * a + Z.b2z d) bits acc
  = acc * 2 ^ Z.of_nat (length bits) + byte_msb_first bits.
Proof.
  unfold byte_msb_first. revert acc.
  induction bits as [| d bits IH]; intro acc; cbn [fold_left].
  - simpl. lia.
  - rewrite IH, (IH (2 * 0 + Z.b2z d)).
    change (length (d :: bits)) with (S (length bits)).
    rewrite Nat2Z.inj_succ, Z.pow_succ_r by lia. ring.
Qed.

Lemma byte_msb_first_bound (bits : list bool) :
  0 <= byte_msb_first bits < 2 ^ Z.of_nat (length bits).
Proof.
  induction bits as [| d bits IH] using rev_ind.
  - simpl. unfold byte_msb_first. simpl. lia.
  - unfold byte_msb_first in *. rewrite fold_left_app. cbn [fold_left].
    rewrite length_app. cbn [length].
    rewrite Nat2Z.inj_add, Z.pow_add_r by lia. change (2 ^ Z.of_nat 1) with 2.
    destruct d; simpl Z.b2z; lia.
Qed.

Lemma shifts_value (di : nat -> bool) (ks : list nat) (u : Z) :
  0 <= u < 256 ->
  shifts u di ks
  = (u * 2 ^ Z.of_nat (length ks) + byte_msb_first (map di ks)) mod 256.
Proof.
  revert u. induction ks as [| k ks IH]; intros u Hu.
  - simpl. unfold byte_msb_first. simpl.
    rewrite Z.mul_1_r, Z.add_0_r. symmetry. now apply Z.mod_small.
  - unfold shifts in *. cbn [fold_left]. rewrite IH.
    + unfold byte_msb_first at 2. cbn [map]. cbn [fold_left].
      rewrite byte_msb_first_acc, length_map.
      change (length (k :: ks)) with (S (length ks)).
      rewrite Nat2Z.inj_succ, Z.pow_succ_r by lia.
      rewrite shift_in_mod.
      rewrite Z.add_mod, Z.mul_mod, Z.mod_mod by lia.
      rewrite <- Z.mul_mod, <- Z.add_mod by lia.
      f_equal. ring.
    + rewrite shift_in_mod. apply Z.mod_pos_bound. lia.
Qed.

Lemma shifts_received (b : Z) (di : nat -> bool) (n0 : nat) :
  shifts (u8 b) di (seq n0 8) = received di n0.
Proof.
  rewrite shifts_value by (rewrite u8_mod; apply Z.mod_pos_bound; lia).
  unfold received.
  change (map (fun k => di (k + n0)%nat) (seq 0 8)) with (map di (seq n0 8)).
  pose proof (byte_msb_first_bound (map di (seq n0 8))) as Hb.
  rewrite length_map, length_seq in *.
  change (2 ^ Z.of_nat 8) with 256 in *.
  rewrite Z.add_comm, Z.mod_add by lia. now apply Z.mod_small.
Qed.

Lemma received_byte (di : nat -> bool) (n0 : nat) : 0 <= received di n0 < 256.
Proof.
  unfold received.
  pose proof (byte_msb_first_bound (map (fun k => di (k + n0)%nat) (seq 0 8))) as Hb.
  rewrite length_map, length_seq in Hb. exact Hb.
Qed.

Lemma clock_bits_exchange (cs : bool) (b : Z) (di : nat -> bool) (n0 : nat) :
  clock_bits cs (u8 b) di (seq n0 8) = exchange_wire cs b di n0.
Proof.
  unfold exchange_wire. cbn [seq flat_map app clock_bits Nat.add].
  rewrite !shift_in_testbit by lia. rewrite !u8_testbit.
  reflexivity.
Qed.

(** ** The polling loop on any device *)

Section Polling.

Context {D : Device}.

Lemma poll_unfold (fuel : nat) (s : mcu) :
  while (S fuel) usi_busy (store USICR usi_strobe) s
  = if completed s then Done tt s
    else while fuel usi_busy (store USICR usi_strobe)
               (io_out USICR usi_strobe s).
Proof.
  cbn [while]. unfold bind, usi_busy, load, ret, store, completed, bind.
  destruct (Z.land (io_in USISR s) (_BV USIOIF) =? 0); reflexivity.
Qed.

Lemma strobes_add (n m : nat) (s : mcu) :
  strobes (n + m) s = strobes m (strobes n s).
Proof.
  revert s. induction n as [| n IH]; intro s; cbn [strobes Nat.add].
  - reflexivity.
  - apply IH.
Qed.

(** The loop leaves at the first state that shows the flag. *)
Lemma poll_done (n fuel : nat) (s : mcu) :
  (forall k, (k < n)%nat -> completed (strobes k s) = false) ->
  completed (strobes n s) = true ->
  (n < fuel)%nat ->
  while fuel usi_busy (store USICR usi_strobe) s = Done tt (strobes n s).
Proof.
  revert fuel s. induction n as [| n IH]; intros fuel s Hbusy Hdone Hfuel;
    (destruct fuel as [| fuel]; [lia |]); rewrite poll_unfold.
  - cbn [strobes] in *. now rewrite Hdone.
  - pose proof (Hbusy 0%nat ltac:(lia)) as H0. cbn [strobes] in *.
    rewrite H0. apply IH; [| assumption | lia].
    intros k Hk. apply (Hbusy (S k)). lia.
Qed.

(** Without the flag the loop uses up any number of iterations. *)
Lemma poll_hang (fuel : nat) (s : mcu) :
  (forall k, completed (strobes k s) = false) ->
  while fuel usi_busy (store USICR usi_strobe) s = Hang (strobes fuel s).
Proof.
  revert s. induction fuel as [| fuel IH]; intros s Hbusy.
  - reflexivity.
  - pose proof (Hbusy 0%nat) as H0. cbn [strobes] in *.
    rewrite poll_unfold, H0. apply IH. intro k. apply (Hbusy (S k)).
Qed.

(** A loop that returns has seen the flag, after strobes that all saw it
    clear. *)
Lemma poll_returns (fuel : nat) (s s' : mcu) :
  while fuel usi_busy (store USICR usi_strobe) s = Done tt s' ->
  exists n, (n < fuel)%nat /\ s' = strobes n s /\ completed s' = true
            /\ forall k, (k < n)%nat -> completed (strobes k s) = false.
Proof.
  revert s. induction fuel as [| fuel IH]; intros s H.
  - discriminate H.
  - rewrite poll_unfold in H.
    destruct (completed s) eqn:Hc.
    + injection H as <-. exists 0%nat. cbn [strobes].
      repeat split; [lia | assumption | intros k Hk; lia].
    + destruct (IH _ H) as (n & Hn & Hs & Hd & Hb).
      exists (S n). cbn [strobes]. repeat split; [lia | assumption.. |].
      intros [| k] Hk; cbn [strobes]; [assumption | apply Hb; lia].
Qed.

Lemma SPISend_unfold (fuel : nat) (b : Z) (s : mcu) :
  SPISend fuel b s
  = match while fuel usi_busy (store USICR usi_strobe)
                (io_out USISR (_BV USIOIF) (io_out USIDR b s)) with
    | Done _ s' => Done (io_in USIDR s') s'
    | Hang s' => Hang s'
    end.
Proof. reflexivity. Qed.

End Polling.

(** ** The serial unit of the device *)

Ltac strobe_bits :=
  change (Z.testbit usi_strobe USITC) with true;
  change (Z.testbit usi_strobe USICLK) with true;
  change (Z.testbit usi_strobe USICS0) with false;
  change (Z.testbit usi_strobe USICS1) with true;
  change (Z.testbit usi_strobe USIWM0) with true;
  change (Z.testbit usi_strobe USIWM1) with false;
  change (u8 usi_strobe) with usi_strobe;
  change (Z.testbit (_BV PB2) PB1) with false;
  change (Z.testbit (_BV PB2) PB2) with true;
  change (Z.testbit (_BV PB2) PB4) with false.

Lemma usi_count_bump (s : avr) :
  usi_count s
  = set_counter (fst (bump (usicnt s, usioif s)))
                (snd (bump (usicnt s, usioif s))) s.
Proof.
  unfold usi_count, bump. cbn [fst snd].
  destruct (16 <=? usicnt s + 1); reflexivity.
Qed.

Lemma strobe_rise (s : avr) :
  sck_pin s = false ->
  avr_out USICR usi_strobe s
  = {| ddrb := ddrb s; portb := Z.lxor (portb s) (_BV PB2);
       usidr := shift_in (usidr s) (di_line s (shifted s));
       usicr := usi_strobe;
       usicnt := fst (bump (usicnt s, usioif s));
       usioif := snd (bump (usicnt s, usioif s));
       mcucr := mcucr s; sreg_i := sreg_i s; di_line := di_line s;
       wakes := wakes s; shifted := S (shifted s);
       wire_log := wire_log s
                   ++ [ClockRise (cs_pin s) (Z.testbit (usidr s) 7)
                                 (di_line s (shifted s))] |}.
Proof.
  intro Hlow. unfold sck_pin in Hlow.
  unfold avr_out, usicr_store, sck_edge, sck_pin, cs_pin, do_pin.
  cbn [portb usicr usidr set_portb set_usicr di_line shifted record].
  rewrite !Z.lxor_spec, Hlow. strobe_bits.
  cbn [xorb eqb negb andb]. rewrite xorb_false_r.
  rewrite usi_count_bump. reflexivity.
Qed.

Lemma strobe_fall (s : avr) :
  sck_pin s = true ->
  avr_out USICR usi_strobe s
  = {| ddrb := ddrb s; portb := Z.lxor (portb s) (_BV PB2);
       usidr := usidr s;
       usicr := usi_strobe;
       usicnt := fst (bump (usicnt s, usioif s));
       usioif := snd (bump (usicnt s, usioif s));
       mcucr := mcucr s; sreg_i := sreg_i s; di_line := di_line s;
       wakes := wakes s; shifted := shifted s;
       wire_log := wire_log s ++ [ClockFall (cs_pin s)] |}.
Proof.
  intro Hhigh. unfold sck_pin in Hhigh.
  unfold avr_out, usicr_store, sck_edge, sck_pin, cs_pin, do_pin.
  cbn [portb usicr usidr set_portb set_usicr di_line shifted record].
  rewrite !Z.lxor_spec, Hhigh. strobe_bits.
  cbn [xorb eqb negb andb]. rewrite xorb_false_r.
  rewrite usi_count_bump. reflexivity.
Qed.

Lemma bump_pair (cf : Z * bool) : (fst (bump cf), snd (bump cf)) = bump cf.
Proof. now destruct (bump cf). Qed.

Lemma iter_pair (n : nat) (cf : Z * bool) :
  (fst (Nat.iter n bump cf), snd (Nat.iter n bump cf)) = Nat.iter n bump cf.
Proof. now destruct (Nat.iter n bump cf). Qed.

Lemma pulse_clocked (s : avr) :
  sck_pin s = false -> strobes 2 s = clocked 1 s.
Proof.
  intro Hlow. cbn [strobes io_out tiny_usi].
  rewrite (strobe_rise s Hlow). rewrite strobe_fall.
  - unfold clocked, cs_pin.
    cbn [ddrb portb usidr usicr usicnt usioif mcucr sreg_i di_line wakes
         shifted wire_log].
    rewrite Z.lxor_spec. change (Z.testbit (_BV PB2) PB4) with false.
    rewrite xorb_false_r, Z.lxor_assoc, Z.lxor_nilpotent, Z.lxor_0_r.
    rewrite bump_pair, <- app_assoc. reflexivity.
  - unfold sck_pin. cbn [portb]. rewrite Z.lxor_spec.
    unfold sck_pin in Hlow. now rewrite Hlow.
Qed.

Lemma clocked_clocked (k : nat) (s : avr) :
  clocked k (clocked 1 s) = clocked (S k) s.
Proof.
  unfold clocked, cs_pin.
  cbn [ddrb portb usidr usicr usicnt usioif mcucr sreg_i di_line wakes
       shifted wire_log].
  rewrite iter_pair, <- Nat.iter_add, <- app_assoc.
  replace (2 * k + 2 * 1)%nat with (2 * S k)%nat by lia.
  replace (k + (1 + shifted s))%nat with (S k + shifted s)%nat by lia.
  reflexivity.
Qed.

Lemma strobes_clocked (k : nat) (s : avr) :
  sck_pin s = false -> strobes (2 * S k) s = clocked (S k) s.
Proof.
  revert s. induction k as [| k IH]; intros s Hlow.
  - now apply pulse_clocked.
  - replace (2 * S (S k))%nat with (2 + 2 * S k)%nat by lia.
    rewrite strobes_add, (pulse_clocked s Hlow), IH by exact Hlow.
    apply clocked_clocked.
Qed.

Lemma land_flag_count (c : Z) : 0 <= c < 16 -> Z.land c (_BV USIOIF) = 0.
Proof.
  intro Hc. rewrite <- (Z.mod_small c 16) by lia.
  change 16 with (2 ^ 4). rewrite <- Z.land_ones by lia.
  rewrite <- Z.land_assoc. change (Z.land (Z.ones 4) (_BV USIOIF)) with 0.
  apply Z.land_0_r.
Qed.

Lemma completed_avr (s : avr) :
  0 <= usicnt s < 16 -> completed s = usioif s.
Proof.
  intro Hc. unfold completed. cbn [io_in tiny_usi avr_in].
  rewrite Z.land_lor_distr_l, (land_flag_count _ Hc), Z.lor_0_r.
  now destruct (usioif s).
Qed.

Lemma strobe_counter (s : avr) :
  (usicnt (avr_out USICR usi_strobe s), usioif (avr_out USICR usi_strobe s))
  = bump (usicnt s, usioif s).
Proof.
  destruct (sck_pin s) eqn:Hpin.
  - rewrite (strobe_fall s Hpin). cbn [usicnt usioif]. apply bump_pair.
  - rewrite (strobe_rise s Hpin). cbn [usicnt usioif]. apply bump_pair.
Qed.

Lemma strobes_counter (n : nat) (s : avr) :
  (usicnt (strobes n s), usioif (strobes n s))
  = Nat.iter n bump (usicnt s, usioif s).
Proof.
  revert s. induction n as [| n IH]; intro s.
  - reflexivity.
  - cbn [strobes io_out tiny_usi]. rewrite IH, strobe_counter.
    now rewrite Nat.iter_succ_r.
Qed.

Lemma bump_counting (k : nat) :
  (k <= 15)%nat -> Nat.iter k bump (0, false) = (Z.of_nat k, false).
Proof.
  induction k as [| k IH]; intro Hk.
  - reflexivity.
  - rewrite Nat.iter_succ, IH by lia. unfold bump. cbn [fst snd].
    destruct (Z.leb_spec 16 (Z.of_nat k + 1)); [lia |].
    f_equal. lia.
Qed.

Lemma pair_eq_inv {A B : Type} (a a' : A) (b b' : B) :
  (a, b) = (a', b') -> a = a' /\ b = b'.
Proof. intro H. now inversion H. Qed.

Lemma bump_overflow : Nat.iter 16 bump (0, false) = (0, true).
Proof. reflexivity. Qed.

Lemma armed_counter (b : Z) (s : avr) :
  (usicnt (armed b s), usioif (armed b s)) = (0, false).
Proof. reflexivity. Qed.

Lemma armed_busy (b : Z) (s : avr) (k : nat) :
  (k < 16)%nat -> completed (strobes k (armed b s)) = false.
Proof.
  intro Hk.
  pose proof (strobes_counter k (armed b s)) as Hc.
  rewrite armed_counter, bump_counting in Hc by lia.
  apply pair_eq_inv in Hc. destruct Hc as [Hcnt Hflag].
  rewrite completed_avr; [exact Hflag | rewrite Hcnt; lia].
Qed.

Lemma armed_done (b : Z) (s : avr) :
  completed (strobes 16 (armed b s)) = true.
Proof.
  pose proof (strobes_counter 16 (armed b s)) as Hc.
  rewrite armed_counter, bump_overflow in Hc.
  apply pair_eq_inv in Hc. destruct Hc as [Hcnt Hflag].
  rewrite completed_avr; [exact Hflag | rewrite Hcnt; lia].
Qed.

Lemma SPISend_returns (fuel : nat) (b : Z) (s : avr) :
  (17 <= fuel)%nat ->
  SPISend fuel b s
  = Done (usidr (strobes 16 (armed b s))) (strobes 16 (armed b s)).
Proof.
  intro Hfuel. rewrite SPISend_unfold.
  change (@io_out tiny_usi USISR (_BV USIOIF) (@io_out tiny_usi USIDR b s))
    with (armed b s).
  rewrite (@poll_done tiny_usi 16 fuel (armed b s)).
  - reflexivity.
  - intros k Hk. now apply armed_busy.
  - apply armed_done.
  - lia.
Qed.

Lemma armed_clocked (b : Z) (s : avr) :
  clocked 8 (armed b s) = after_exchange b s.
Proof.
  unfold clocked, after_exchange, armed, avr_out, usisr_store, cs_pin.
  cbn [ddrb portb usidr usicr usicnt usioif mcucr sreg_i di_line wakes
       shifted wire_log set_counter set_usidr].
  rewrite shifts_received, clock_bits_exchange.
  change (Z.land (_BV USIOIF) 15) with 0.
  change (Z.testbit (_BV USIOIF) USIOIF) with true. cbv iota.
  change (2 * 8)%nat with 16%nat. rewrite bump_overflow.
  reflexivity.
Qed.

(** The byte shifter on the device, clock idle low. *)
Lemma SPISend_exchange (fuel : nat) (b : Z) (s : avr) :
  (17 <= fuel)%nat -> sck_pin s = false ->
  SPISend fuel b s = Done (received (di_line s) (shifted s)) (after_exchange b s).
Proof.
  intros Hfuel Hlow. rewrite SPISend_returns by exact Hfuel.
  change 16%nat with (2 * 8)%nat.
  rewrite (strobes_clocked 7 (armed b s)) by exact Hlow.
  rewrite armed_clocked. reflexivity.
Qed.

(** ** The register transport on the device *)

Lemma select_bits (p k : Z) :
  0 <= k < 8 ->
  Z.testbit (u8 (Z.land p (Z.lnot (_BV DIT4192_CS)))) k
  = Z.testbit p k && negb (k =? 4).
Proof.
  intro Hk. rewrite u8_testbit, Z.land_spec, Z.lnot_spec by lia.
  replace (k <? 8) with true by (symmetry; apply Z.ltb_lt; lia).
  change (_BV DIT4192_CS) with (2 ^ 4).
  rewrite Z.pow2_bits_eqb by lia. rewrite (Z.eqb_sym 4 k). reflexivity.
Qed.

Lemma deselect_bits (p k : Z) :
  0 <= k < 8 ->
  Z.testbit (u8 (Z.lor p (_BV DIT4192_CS))) k = Z.testbit p k || (k =? 4).
Proof.
  intro Hk. rewrite u8_testbit, Z.lor_spec.
  replace (k <? 8) with true by (symmetry; apply Z.ltb_lt; lia).
  change (_BV DIT4192_CS) with (2 ^ 4).
  rewrite Z.pow2_bits_eqb by lia. rewrite (Z.eqb_sym 4 k). reflexivity.
Qed.

Lemma SELECT_avr (s : avr) : SELECT s = Done tt (selected s).
Proof.
  unfold SELECT, bind, load, store. cbn [io_in io_out tiny_usi avr_in avr_out].
  unfold portb_store, selected, sck_pin. cbn [portb record set_portb].
  rewrite select_bits by (unfold PB2; lia).
  rewrite Z.land_spec, Z.lnot_spec by (unfold PB4; lia).
  change (Z.testbit (_BV DIT4192_CS) PB4) with true.
  change (PB2 =? 4) with false. cbn [negb].
  rewrite !andb_true_r, andb_false_r, eqb_reflx. reflexivity.
Qed.

Lemma DESELECT_avr (s : avr) : DESELECT s = Done tt (deselected s).
Proof.
  unfold DESELECT, bind, load, store. cbn [io_in io_out tiny_usi avr_in avr_out].
  unfold portb_store, deselected, sck_pin. cbn [portb record set_portb].
  rewrite deselect_bits by (unfold PB2; lia).
  rewrite Z.lor_spec.
  change (Z.testbit (_BV DIT4192_CS) PB4) with true.
  change (PB2 =? 4) with false.
  rewrite !orb_false_r, orb_true_r, eqb_reflx. reflexivity.
Qed.

Lemma selected_sck (s : avr) : sck_pin (selected s) = sck_pin s.
Proof.
  unfold selected, sck_pin. cbn [portb record set_portb].
  rewrite select_bits by (unfold PB2; lia).
  change (PB2 =? 4) with false. apply andb_true_r.
Qed.

Lemma selected_cs (s : avr) : cs_pin (selected s) = false.
Proof.
  unfold selected, cs_pin. cbn [portb record set_portb].
  rewrite select_bits by (unfold PB4; lia).
  change (PB4 =? 4) with true. apply andb_false_r.
Qed.

Lemma deselected_sck (s : avr) : sck_pin (deselected s) = sck_pin s.
Proof.
  unfold deselected, sck_pin. cbn [portb record set_portb].
  rewrite deselect_bits by (unfold PB2; lia).
  change (PB2 =? 4) with false. apply orb_false_r.
Qed.

Lemma deselected_cs (s : avr) : cs_pin (deselected s) = true.
Proof.
  unfold deselected, cs_pin. cbn [portb record set_portb].
  rewrite deselect_bits by (unfold PB4; lia).
  change (PB4 =? 4) with true. apply orb_true_r.
Qed.

Lemma after_exchange_sck (b : Z) (s : avr) :
  sck_pin (after_exchange b s) = sck_pin s.
Proof. reflexivity. Qed.

Lemma after_exchange_cs (b : Z) (s : avr) :
  cs_pin (after_exchange b s) = cs_pin s.
Proof. reflexivity. Qed.

Lemma select_then_deselect (p : Z) :
  u8 (Z.lor (u8 (Z.land p (Z.lnot (_BV DIT4192_CS)))) (_BV DIT4192_CS))
  = Z.lor (u8 p) (_BV DIT4192_CS).
Proof.
  apply Z.bits_inj'. intros n Hn.
  rewrite Z.lor_spec, !u8_testbit, Z.lor_spec, u8_testbit, Z.land_spec,
    Z.lnot_spec by lia.
  change (_BV DIT4192_CS) with (2 ^ 4). rewrite Z.pow2_bits_eqb by lia.
  destruct (Z.eqb_spec 4 n) as [<- | Hne].
  - now destruct (Z.testbit p 4).
  - destruct (n <? 8), (Z.testbit p n); reflexivity.
Qed.

(** The three exchanges of a register access, between select and deselect. *)
Lemma transaction_avr (b0 b1 b2 : Z) (s : avr) :
  deselected
    (after_exchange b2 (after_exchange b1 (after_exchange b0 (selected s))))
  = after_transaction b0 b1 b2 s.
Proof.
  unfold deselected, after_transaction, transaction_wire, after_exchange,
    selected, cs_pin.
  cbn [ddrb portb usidr usicr usicnt usioif mcucr sreg_i di_line wakes
       shifted wire_log record set_portb].
  rewrite select_then_deselect, select_bits by (unfold PB4; lia).
  change (PB4 =? 4) with true. rewrite andb_false_r.
  unfold record, set_portb.
  cbn [ddrb portb usidr usicr usicnt usioif mcucr sreg_i di_line wakes
       shifted wire_log].
  rewrite <- !app_assoc. reflexivity.
Qed.

Lemma DIT4192WriteReg_avr (fuel : nat) (reg value : Z) (s : avr) :
  (17 <= fuel)%nat -> sck_pin s = false ->
  DIT4192WriteReg fuel reg value s
  = Done tt (after_transaction (Z.land reg 0x3f) 0xff value s).
Proof.
  intros Hfuel Hlow. unfold DIT4192WriteReg, bind.
  rewrite SELECT_avr.
  rewrite SPISend_exchange by (try exact Hfuel; now rewrite selected_sck).
  rewrite SPISend_exchange
    by (try exact Hfuel; now rewrite after_exchange_sck, selected_sck).
  rewrite SPISend_exchange
    by (try exact Hfuel; now rewrite !after_exchange_sck, selected_sck).
  rewrite DESELECT_avr, transaction_avr. reflexivity.
Qed.

Lemma DIT4192ReadReg_avr (fuel : nat) (reg : Z) (s : avr) :
  (17 <= fuel)%nat -> sck_pin s = false ->
  DIT4192ReadReg fuel reg s
  = Done (received (di_line s) (16 + shifted s))
         (after_transaction (Z.lor (Z.land reg 0x3f) 0x80) 0xff 0xff s).
Proof.
  intros Hfuel Hlow. unfold DIT4192ReadReg, bind.
  rewrite SELECT_avr.
  rewrite SPISend_exchange by (try exact Hfuel; now rewrite selected_sck).
  rewrite SPISend_exchange
    by (try exact Hfuel; now rewrite after_exchange_sck, selected_sck).
  rewrite SPISend_exchange
    by (try exact Hfuel; now rewrite !after_exchange_sck, selected_sck).
  rewrite DESELECT_avr, transaction_avr. reflexivity.
Qed.

Lemma after_transaction_sck (b0 b1 b2 : Z) (s : avr) :
  sck_pin (after_transaction b0 b1 b2 s) = sck_pin s.
Proof.
  unfold after_transaction, sck_pin. cbn [portb].
  rewrite Z.lor_spec, u8_testbit.
  change (Z.testbit (_BV DIT4192_CS) PB2) with false.
  change (PB2 <? 8) with true. now rewrite orb_false_r.
Qed.

Lemma after_transaction_cs (b0 b1 b2 : Z) (s : avr) :
  cs_pin (after_transaction b0 b1 b2 s) = true.
Proof.
  unfold after_transaction, cs_pin. cbn [portb].
  rewrite Z.lor_spec. change (Z.testbit (_BV DIT4192_CS) PB4) with true.
  apply orb_true_r.
Qed.

(** ** Reading bytes and windows off the recording *)

Lemma mod_pow2_succ (b n : Z) :
  0 <= n -> b mod 2 ^ (n + 1) = 2 ^ n * Z.b2z (Z.testbit b n) + b mod 2 ^ n.
Proof.
  intro Hn. rewrite Z.testbit_spec' by lia.
  rewrite Z.pow_add_r, Z.pow_1_r by lia.
  rewrite Z.rem_mul_r by lia. lia.
Qed.

Lemma byte_of_testbits (b : Z) :
  byte_msb_first [Z.testbit b 7; Z.testbit b 6; Z.testbit b 5; Z.testbit b 4;
                  Z.testbit b 3; Z.testbit b 2; Z.testbit b 1; Z.testbit b 0]
  = u8 b.
Proof.
  rewrite u8_mod. change 256 with (2 ^ (7 + 1)).
  rewrite (mod_pow2_succ b 7) by lia. change (2 ^ 7) with (2 ^ (6 + 1)) at 2.
  rewrite (mod_pow2_succ b 6) by lia. change (2 ^ 6) with (2 ^ (5 + 1)) at 2.
  rewrite (mod_pow2_succ b 5) by lia. change (2 ^ 5) with (2 ^ (4 + 1)) at 2.
  rewrite (mod_pow2_succ b 4) by lia. change (2 ^ 4) with (2 ^ (3 + 1)) at 2.
  rewrite (mod_pow2_succ b 3) by lia. change (2 ^ 3) with (2 ^ (2 + 1)) at 2.
  rewrite (mod_pow2_succ b 2) by lia. change (2 ^ 2) with (2 ^ (1 + 1)) at 2.
  rewrite (mod_pow2_succ b 1) by lia. change (2 ^ 1) with (2 ^ (0 + 1)) at 2.
  rewrite (mod_pow2_succ b 0) by lia.
  change (2 ^ 0) with 1. rewrite Z.mod_1_r.
  unfold byte_msb_first. cbn [fold_left].
  change (2 ^ 7) with 128. change (2 ^ 6) with 64. change (2 ^ 5) with 32.
  change (2 ^ 4) with 16. change (2 ^ 3) with 8. change (2 ^ 2) with 4.
  change (2 ^ 1) with 2.
  lia.
Qed.

Lemma exchange_wire_edges (cs : bool) (b : Z) (di : nat -> bool) (n : nat) :
  exchange_wire cs b di n
  = [ClockRise cs (Z.testbit b 7) (di n); ClockFall cs;
     ClockRise cs (Z.testbit b 6) (di (1 + n)%nat); ClockFall cs;
     ClockRise cs (Z.testbit b 5) (di (2 + n)%nat); ClockFall cs;
     ClockRise cs (Z.testbit b 4) (di (3 + n)%nat); ClockFall cs;
     ClockRise cs (Z.testbit b 3) (di (4 + n)%nat); ClockFall cs;
     ClockRise cs (Z.testbit b 2) (di (5 + n)%nat); ClockFall cs;
     ClockRise cs (Z.testbit b 1) (di (6 + n)%nat); ClockFall cs;
     ClockRise cs (Z.testbit b 0) (di (7 + n)%nat); ClockFall cs].
Proof. reflexivity. Qed.

Lemma sent_exchange (cs : bool) (b : Z) (di : nat -> bool) (n : nat)
    (rest : list wire) :
  sent (exchange_wire cs b di n ++ rest) = u8 b :: sent rest.
Proof.
  rewrite exchange_wire_edges. unfold sent, mosi_bits.
  cbn [app flat_map bytes_msb_first]. now rewrite byte_of_testbits.
Qed.

Lemma answered_exchange (cs : bool) (b : Z) (di : nat -> bool) (n : nat)
    (rest : list wire) :
  answered (exchange_wire cs b di n ++ rest) = received di n :: answered rest.
Proof.
  rewrite exchange_wire_edges. unfold answered, miso_bits.
  cbn [app flat_map bytes_msb_first]. reflexivity.
Qed.

Lemma sent_select (level : bool) (rest : list wire) :
  sent (ChipSelect level :: rest) = sent rest.
Proof. reflexivity. Qed.

Lemma sent_transaction_app (b0 b1 b2 : Z) (di : nat -> bool) (n : nat)
    (rest : list wire) :
  sent (transaction_wire b0 b1 b2 di n ++ rest)
  = u8 b0 :: u8 b1 :: u8 b2 :: sent rest.
Proof.
  unfold transaction_wire. cbn [app].
  rewrite sent_select, <- !app_assoc, !sent_exchange. cbn [app].
  now rewrite sent_select.
Qed.

Lemma sent_transaction (b0 b1 b2 : Z) (di : nat -> bool) (n : nat) :
  sent (transaction_wire b0 b1 b2 di n) = [u8 b0; u8 b1; u8 b2].
Proof.
  rewrite <- (app_nil_r (transaction_wire _ _ _ _ _)).
  now rewrite sent_transaction_app.
Qed.

Lemma answered_select (level : bool) (rest : list wire) :
  answered (ChipSelect level :: rest) = answered rest.
Proof. reflexivity. Qed.

Lemma answered_transaction (b0 b1 b2 : Z) (di : nat -> bool) (n : nat) :
  answered (transaction_wire b0 b1 b2 di n)
  = [received di n; received di (8 + n); received di (16 + n)].
Proof.
  unfold transaction_wire.
  rewrite answered_select, !answered_exchange. reflexivity.
Qed.

Lemma windows_transaction (b0 b1 b2 : Z) (di : nat -> bool) (n closed : nat)
    (rest : list wire) :
  select_windows None closed (transaction_wire b0 b1 b2 di n ++ rest)
  = select_windows None (S closed) rest.
Proof.
  unfold transaction_wire. rewrite !exchange_wire_edges. reflexivity.
Qed.

Lemma shift_in_bit0 (u : Z) (d : bool) (j : Z) :
  j = 0 -> Z.testbit (shift_in u d) j = d.
Proof.
  intros ->. unfold shift_in.
  rewrite u8_testbit, Z.lor_spec, Z.shiftl_spec_low, Z.b2z_bit0 by lia.
  reflexivity.
Qed.

(** Bit [7 - k] of the byte received is the level DI had in bit time [k]. *)
Lemma received_bits (di : nat -> bool) (n k : nat) :
  (k < 8)%nat -> Z.testbit (received di n) (7 - Z.of_nat k) = di (k + n)%nat.
Proof.
  intro Hk. rewrite <- (shifts_received 0). unfold shifts.
  cbn [seq fold_left].
  do 8 (destruct k as [| k];
        [ rewrite ?shift_in_testbit by lia; rewrite shift_in_bit0 by lia;
          reflexivity |]).
  lia.
Qed.

(** ** The firmware on the device *)

Lemma land_63_byte (x : Z) : 0 <= Z.land x 0x3f < 64.
Proof.
  change 0x3f with (Z.ones 6). rewrite Z.land_ones by lia.
  apply Z.mod_pos_bound. lia.
Qed.

Lemma command_bits (reg : Z) :
  Z.testbit (Z.land reg 0x3f) 7 = false
  /\ Z.testbit (Z.land reg 0x3f) 6 = false
  /\ Z.testbit (Z.lor (Z.land reg 0x3f) 0x80) 7 = true
  /\ Z.testbit (Z.lor (Z.land reg 0x3f) 0x80) 6 = false.
Proof.
  rewrite !Z.lor_spec, !Z.land_spec.
  change (Z.testbit 0x3f 7) with false. change (Z.testbit 0x3f 6) with false.
  change (Z.testbit 0x80 7) with true. change (Z.testbit 0x80 6) with false.
  rewrite !andb_false_r. repeat split.
Qed.

Lemma read_command_byte (x : Z) : 0 <= Z.lor (Z.land x 0x3f) 0x80 < 256.
Proof.
  pose proof (land_63_byte x) as H.
  split.
  - apply Z.lor_nonneg. lia.
  - assert (Hd : Z.land (Z.land x 0x3f) 0x80 = 0).
    { rewrite <- Z.land_assoc. apply Z.land_0_r. }
    rewrite <- Z.lxor_lor, <- Z.add_nocarry_lxor by exact Hd. lia.
Qed.

(** The empty loop [while (1);] never exits. *)
Lemma spin_forever {D : Device} (fuel : nat) (s : mcu) :
  while fuel (ret true) (ret tt) s = Hang s.
Proof.
  induction fuel as [| fuel IH]; [reflexivity |].
  cbn [while]. unfold bind at 1. unfold ret at 1. cbv iota beta.
  unfold bind at 1. unfold ret at 1. exact IH.
Qed.

Lemma record_sck (w : wire) (s : avr) : sck_pin (record w s) = sck_pin s.
Proof. reflexivity. Qed.

Lemma set_ddrb_sck (v : Z) (s : avr) : sck_pin (set_ddrb v s) = sck_pin s.
Proof. reflexivity. Qed.

Ltac clock_idle :=
  rewrite ?after_transaction_sck, ?record_sck, ?deselected_sck, ?set_ddrb_sck;
  assumption.

Lemma main_avr (fuel : nat) (s : avr) :
  (17 <= fuel)%nat -> sck_pin s = false ->
  main fuel s = Hang (parked s).
Proof.
  intros Hfuel Hlow. unfold main.
  unfold bind at 1. unfold store at 1. cbn [io_out tiny_usi avr_out].
  unfold bind at 1. rewrite DESELECT_avr.
  unfold bind at 1. unfold _delay_ms at 1. cbn [cpu_delay_ms tiny_usi].
  unfold bind at 1.
  rewrite DIT4192WriteReg_avr
    by (try exact Hfuel; clock_idle).
  unfold bind at 1.
  rewrite DIT4192WriteReg_avr
    by (try exact Hfuel; clock_idle).
  unfold bind at 1. unfold cli at 1. cbn [cpu_cli tiny_usi].
  unfold bind at 1. unfold set_sleep_mode at 1. unfold bind at 1.
  unfold load at 1, store at 1. cbn [io_in io_out tiny_usi avr_in avr_out].
  match goal with
  | |- context [set_mcucr ?v ?st] =>
      change (set_mcucr v st) with (parked s)
  end.
  unfold bind at 1, sleep_cpu at 1. cbn [cpu_sleep tiny_usi]. unfold avr_sleep.
  destruct (Z.testbit (mcucr (parked s)) SE); [destruct (wakes (parked s)) |];
    try reflexivity; unfold bind; now rewrite (@spin_forever tiny_usi).
Qed.

Lemma after_transaction_log (b0 b1 b2 : Z) (s : avr) :
  wire_log (after_transaction b0 b1 b2 s)
  = wire_log s ++ transaction_wire b0 b1 b2 (di_line s) (shifted s).
Proof. reflexivity. Qed.

Lemma after_transaction_line (b0 b1 b2 : Z) (s : avr) :
  di_line (after_transaction b0 b1 b2 s) = di_line s
  /\ shifted (after_transaction b0 b1 b2 s) = (24 + shifted s)%nat.
Proof. split; reflexivity. Qed.

Lemma settled_log (s : avr) (v : Z) :
  let s0 := record (Idle 5) (deselected (set_ddrb v s)) in
  wire_log s0 = wire_log s ++ [ChipSelect true; Idle 5]
  /\ di_line s0 = di_line s /\ shifted s0 = shifted s.
Proof.
  cbv zeta. unfold record at 1. cbn [wire_log di_line shifted].
  unfold deselected, record. cbn [wire_log di_line shifted].
  unfold set_portb. cbn [wire_log di_line shifted].
  unfold set_ddrb. cbn [wire_log di_line shifted].
  rewrite <- app_assoc. repeat split.
Qed.

Lemma parked_log (s : avr) :
  wire_log (parked s)
  = wire_log s
    ++ ChipSelect true :: Idle 5
       :: transaction_wire 0x03 0xff 0x14 (di_line s) (shifted s)
    ++ transaction_wire 0x02 0xff 0x02 (di_line s) (24 + shifted s).
Proof.
  unfold parked.
  match goal with
  | |- wire_log (set_mcucr _ (set_sreg_i _ ?st)) = _ =>
      change (wire_log st = wire_log s
               ++ ChipSelect true :: Idle 5
                  :: transaction_wire 0x03 0xff 0x14 (di_line s) (shifted s)
               ++ transaction_wire 0x02 0xff 0x02 (di_line s)
                                   (24 + shifted s))
  end.
  rewrite !after_transaction_log.
  repeat match goal with
         | |- context [di_line (after_transaction ?a ?b ?c ?st)] =>
             rewrite (proj1 (after_transaction_line a b c st))
         | |- context [shifted (after_transaction ?a ?b ?c ?st)] =>
             rewrite (proj2 (after_transaction_line a b c st))
         end.
  match goal with
  | |- context [record (Idle 5) (deselected (set_ddrb ?v s))] =>
      destruct (settled_log s v) as (Hlog & Hdi & Hsh);
      cbv zeta in Hlog, Hdi, Hsh; rewrite Hlog, Hdi, Hsh
  end.
  rewrite <- !app_assoc. reflexivity.
Qed.

Lemma shift_in_byte (u : Z) (d : bool) : 0 <= shift_in u d < 256.
Proof. rewrite shift_in_mod. apply Z.mod_pos_bound. lia. Qed.

Lemma strobe_usidr_byte (s : avr) :
  0 <= usidr s < 256 -> 0 <= usidr (avr_out USICR usi_strobe s) < 256.
Proof.
  intro H. destruct (sck_pin s) eqn:Hpin.
  - rewrite (strobe_fall s Hpin). exact H.
  - rewrite (strobe_rise s Hpin). cbn [usidr]. apply shift_in_byte.
Qed.

Lemma strobes_usidr_byte (n : nat) (s : avr) :
  0 <= usidr s < 256 -> 0 <= usidr (strobes n s) < 256.
Proof.
  revert s. induction n as [| n IH]; intros s H; cbn [strobes].
  - exact H.
  - apply IH. now apply strobe_usidr_byte.
Qed.

Lemma armed_usidr_byte (b : Z) (s : avr) : 0 <= usidr (armed b s) < 256.
Proof.
  unfold armed, avr_out, usisr_store. cbn [usidr set_counter set_usidr].
  rewrite u8_mod. apply Z.mod_pos_bound. lia.
Qed.

(** ** Properties of the register-access protocol *)

(** C1. Write framing: for an address [a] in [0,63] and a value [v] in
    [0,255], [DIT4192WriteReg a v] returns nothing and puts on the wire, in
    this order: chip-select driven low, the sixteen clock edges of each of
    the bytes [a & 0x3F], [0xFF], [v], every edge with chip-select low, and
    chip-select driven high right after the last edge.  The bytes read off
    DO are exactly [[a & 0x3F; 0xFF; v]], whatever DI carried. *)
Theorem write_register_framing (fuel : nat) (a v : Z) (s : avr) :
  (17 <= fuel)%nat -> sck_pin s = false -> 0 <= a <= 63 -> 0 <= v <= 255 ->
  exists s' new,
    DIT4192WriteReg fuel a v s = Done tt s'
    /\ wire_log s' = wire_log s ++ new
    /\ new = [ChipSelect false]
             ++ exchange_wire false (Z.land a 0x3f) (di_line s) (shifted s)
             ++ exchange_wire false 0xff (di_line s) (8 + shifted s)
             ++ exchange_wire false v (di_line s) (16 + shifted s)
             ++ [ChipSelect true]
    /\ sent new = [Z.land a 0x3f; 0xff; v]
    /\ cs_pin s' = true.
Proof.
  intros Hfuel Hlow Ha Hv.
  exists (after_transaction (Z.land a 0x3f) 0xff v s),
         (transaction_wire (Z.land a 0x3f) 0xff v (di_line s) (shifted s)).
  split; [| split; [| split; [| split]]].
  - now apply DIT4192WriteReg_avr.
  - apply after_transaction_log.
  - reflexivity.
  - rewrite sent_transaction.
    pose proof (land_63_byte a) as Hc.
    rewrite !u8_small by lia. reflexivity.
  - apply after_transaction_cs.
Qed.

Lemma write_register_framing_witness :
  exists s' new,
    DIT4192WriteReg 17 0x03 0x14 bench = Done tt s'
    /\ wire_log s' = wire_log bench ++ new
    /\ new = [ChipSelect false]
             ++ exchange_wire false (Z.land 0x03 0x3f) (di_line bench)
                              (shifted bench)
             ++ exchange_wire false 0xff (di_line bench) (8 + shifted bench)
             ++ exchange_wire false 0x14 (di_line bench) (16 + shifted bench)
             ++ [ChipSelect true]
    /\ sent new = [Z.land 0x03 0x3f; 0xff; 0x14]
    /\ cs_pin s' = true.
Proof.
  apply (write_register_framing 17 0x03 0x14 bench);
    [lia | reflexivity | lia | lia].
Defined.

(** C2. Read framing: for an address [a] in [0,63], [DIT4192ReadReg a]
    puts on the wire, inside one select window, the bytes
    [(a & 0x3F) | 0x80], [0xFF], [0xFF]; of the three bytes DI carried it
    returns the third and drops the first two. *)
Theorem read_register_framing (fuel : nat) (a : Z) (s : avr) :
  (17 <= fuel)%nat -> sck_pin s = false -> 0 <= a <= 63 ->
  exists r s' new r1 r2,
    DIT4192ReadReg fuel a s = Done r s'
    /\ wire_log s' = wire_log s ++ new
    /\ new = [ChipSelect false]
             ++ exchange_wire false (Z.lor (Z.land a 0x3f) 0x80) (di_line s)
                              (shifted s)
             ++ exchange_wire false 0xff (di_line s) (8 + shifted s)
             ++ exchange_wire false 0xff (di_line s) (16 + shifted s)
             ++ [ChipSelect true]
    /\ sent new = [Z.lor (Z.land a 0x3f) 0x80; 0xff; 0xff]
    /\ answered new = [r1; r2; r]
    /\ r = received (di_line s) (16 + shifted s)
    /\ cs_pin s' = true.
Proof.
  intros Hfuel Hlow Ha.
  exists (received (di_line s) (16 + shifted s)),
         (after_transaction (Z.lor (Z.land a 0x3f) 0x80) 0xff 0xff s),
         (transaction_wire (Z.lor (Z.land a 0x3f) 0x80) 0xff 0xff
                           (di_line s) (shifted s)),
         (received (di_line s) (shifted s)),
         (received (di_line s) (8 + shifted s)).
  split; [| split; [| split; [| split; [| split; [| split]]]]].
  - now apply DIT4192ReadReg_avr.
  - apply after_transaction_log.
  - reflexivity.
  - rewrite sent_transaction.
    pose proof (read_command_byte a) as Hc.
    rewrite !u8_small by lia. reflexivity.
  - apply answered_transaction.
  - reflexivity.
  - apply after_transaction_cs.
Qed.

Lemma read_register_framing_witness :
  exists r s' new r1 r2,
    DIT4192ReadReg 17 0x03 bench = Done r s'
    /\ wire_log s' = wire_log bench ++ new
    /\ new = [ChipSelect false]
             ++ exchange_wire false (Z.lor (Z.land 0x03 0x3f) 0x80)
                              (di_line bench) (shifted bench)
             ++ exchange_wire false 0xff (di_line bench) (8 + shifted bench)
             ++ exchange_wire false 0xff (di_line bench) (16 + shifted bench)
             ++ [ChipSelect true]
    /\ sent new = [Z.lor (Z.land 0x03 0x3f) 0x80; 0xff; 0xff]
    /\ answered new = [r1; r2; r]
    /\ r = received (di_line bench) (16 + shifted bench)
    /\ cs_pin s' = true.
Proof.
  apply (read_register_framing 17 0x03 bench); [lia | reflexivity | lia].
Defined.

(** C3. Initialization order: from a core with the clock line idle, [main]
    deselects, waits the 5 ms settle delay and then puts exactly two
    transactions on the wire, first the bytes [0x03; 0xFF; 0x14] (audio
    serial port control, [JUS | WLEN0]) and then [0x02; 0xFF; 0x02]
    (power-down and clock control, [CLK0]); however long it runs afterwards
    nothing more is recorded and [main] does not return. *)
Theorem initialization_order (fuel : nat) (s : avr) :
  (17 <= fuel)%nat -> sck_pin s = false ->
  exists s',
    main fuel s = Hang s'
    /\ wire_log s'
       = wire_log s
         ++ [ChipSelect true; Idle 5]
         ++ transaction_wire 0x03 0xff 0x14 (di_line s) (shifted s)
         ++ transaction_wire 0x02 0xff 0x02 (di_line s) (24 + shifted s)
    /\ sent (transaction_wire 0x03 0xff 0x14 (di_line s) (shifted s)
             ++ transaction_wire 0x02 0xff 0x02 (di_line s) (24 + shifted s))
       = [0x03; 0xff; 0x14; 0x02; 0xff; 0x02]
    /\ AUDIO_SERIAL_PORT_CONTROL = 0x03
    /\ Z.lor (_BV JUS) (_BV WLEN0) = 0x14
    /\ POWER_DOWN_AND_CLOCK_CONTROL = 0x02
    /\ _BV CLK0 = 0x02.
Proof.
  intros Hfuel Hlow. exists (parked s).
  split; [| split; [| split; [| repeat split]]].
  - now apply main_avr.
  - apply parked_log.
  - now rewrite sent_transaction_app, sent_transaction.
Qed.

Lemma initialization_order_witness :
  exists s',
    main 17 bench = Hang s'
    /\ wire_log s'
       = wire_log bench
         ++ [ChipSelect true; Idle 5]
         ++ transaction_wire 0x03 0xff 0x14 (di_line bench) (shifted bench)
         ++ transaction_wire 0x02 0xff 0x02 (di_line bench)
                             (24 + shifted bench)
    /\ sent (transaction_wire 0x03 0xff 0x14 (di_line bench) (shifted bench)
             ++ transaction_wire 0x02 0xff 0x02 (di_line bench)
                                 (24 + shifted bench))
       = [0x03; 0xff; 0x14; 0x02; 0xff; 0x02]
    /\ AUDIO_SERIAL_PORT_CONTROL = 0x03
    /\ Z.lor (_BV JUS) (_BV WLEN0) = 0x14
    /\ POWER_DOWN_AND_CLOCK_CONTROL = 0x02
    /\ _BV CLK0 = 0x02.
Proof.
  apply (initialization_order 17 bench); [lia | reflexivity].
Defined.

(** Any sequence of register accesses, seen by the recorder. *)
Lemma run_transfers_windows (fuel : nat) (ts : list transfer) (s : avr) :
  (17 <= fuel)%nat -> sck_pin s = false ->
  exists s' new,
    run_transfers fuel ts s = Done tt s'
    /\ sck_pin s' = false
    /\ wire_log s' = wire_log s ++ new
    /\ forall closed rest,
         select_windows None closed (new ++ rest)
         = select_windows None (length ts + closed) rest.
Proof.
  intro Hfuel. revert s. induction ts as [| t ts IH]; intros s Hlow.
  - exists s, []. split; [reflexivity |]. split; [assumption |].
    split; [now rewrite app_nil_r |]. intros closed rest. reflexivity.
  - cbn [run_transfers]. unfold bind at 1.
    assert (Hstep : exists b0 b1 b2,
               run_transfer fuel t s
               = Done tt (after_transaction b0 b1 b2 s)).
    { destruct t as [reg value | reg]; cbn [run_transfer].
      - exists (Z.land reg 0x3f), 0xff, value.
        now apply DIT4192WriteReg_avr.
      - exists (Z.lor (Z.land reg 0x3f) 0x80), 0xff, 0xff.
        unfold bind. now rewrite DIT4192ReadReg_avr. }
    destruct Hstep as (b0 & b1 & b2 & ->).
    destruct (IH (after_transaction b0 b1 b2 s)) as (s' & new & Hrun & Hsck & Hlog & Hwin).
    { now rewrite after_transaction_sck. }
    exists s', (transaction_wire b0 b1 b2 (di_line s) (shifted s) ++ new).
    split; [exact Hrun |]. split; [exact Hsck |]. split.
    + rewrite Hlog. cbn [after_transaction wire_log]. now rewrite app_assoc.
    + intros closed rest.
      rewrite <- app_assoc, windows_transaction, Hwin.
      cbn [length]. f_equal. lia.
Qed.

(** C4. Select exclusivity: run any sequence of register accesses one after
    the other; what is recorded is exactly one select window per access,
    each opened by one assertion, holding 24 clock pulses all seen with
    chip-select low, and closed by one deassertion; no clock edge falls
    outside a window, no window opens before the previous one has closed. *)
Theorem select_exclusivity (fuel : nat) (ts : list transfer) (s : avr) :
  (17 <= fuel)%nat -> sck_pin s = false ->
  exists s' new,
    run_transfers fuel ts s = Done tt s'
    /\ wire_log s' = wire_log s ++ new
    /\ select_windows None 0 new = Some (length ts).
Proof.
  intros Hfuel Hlow.
  destruct (run_transfers_windows fuel ts s Hfuel Hlow)
    as (s' & new & Hrun & _ & Hlog & Hwin).
  exists s', new. split; [exact Hrun |]. split; [exact Hlog |].
  rewrite <- (app_nil_r new), Hwin. cbn [select_windows].
  f_equal. lia.
Qed.

Lemma select_exclusivity_witness :
  exists s' new,
    run_transfers 17 [WriteOp 0x03 0x14; ReadOp 0x03; WriteOp 0x02 0x02] bench
    = Done tt s'
    /\ wire_log s' = wire_log bench ++ new
    /\ select_windows None 0 new = Some 3%nat.
Proof.
  apply (select_exclusivity 17
           [WriteOp 0x03 0x14; ReadOp 0x03; WriteOp 0x02 0x02] bench);
    [lia | reflexivity].
Defined.

(** C5. Command byte: for every 8-bit [reg] the first byte on the wire has
    bit 6 clear and bit 7 equal to the direction (clear for a write, set for
    a read), and carries the low six bits of [reg]: the top two bits of the
    caller's address never reach the wire. *)
Theorem command_byte_direction (fuel : nat) (reg v : Z) (s : avr) :
  (17 <= fuel)%nat -> sck_pin s = false -> 0 <= reg <= 255 ->
  (exists s' new cmd rest,
      DIT4192WriteReg fuel reg v s = Done tt s'
      /\ wire_log s' = wire_log s ++ new
      /\ sent new = cmd :: rest
      /\ Z.testbit cmd 7 = false /\ Z.testbit cmd 6 = false
      /\ Z.land cmd 0x3f = Z.land reg 0x3f)
  /\ (exists r s' new cmd rest,
      DIT4192ReadReg fuel reg s = Done r s'
      /\ wire_log s' = wire_log s ++ new
      /\ sent new = cmd :: rest
      /\ Z.testbit cmd 7 = true /\ Z.testbit cmd 6 = false
      /\ Z.land cmd 0x3f = Z.land reg 0x3f).
Proof.
  intros Hfuel Hlow Hreg.
  destruct (command_bits reg) as (Hw7 & Hw6 & Hr7 & Hr6).
  split.
  - exists (after_transaction (Z.land reg 0x3f) 0xff v s),
           (transaction_wire (Z.land reg 0x3f) 0xff v (di_line s) (shifted s)),
           (Z.land reg 0x3f), [u8 0xff; u8 v].
    split; [| split; [| split; [| split; [| split]]]]; try assumption.
    + now apply DIT4192WriteReg_avr.
    + apply after_transaction_log.
    + rewrite sent_transaction.
      pose proof (land_63_byte reg) as Hc.
      now rewrite (u8_small (Z.land reg 0x3f)) by lia.
    + rewrite <- Z.land_assoc. reflexivity.
  - exists (received (di_line s) (16 + shifted s)),
           (after_transaction (Z.lor (Z.land reg 0x3f) 0x80) 0xff 0xff s),
           (transaction_wire (Z.lor (Z.land reg 0x3f) 0x80) 0xff 0xff
                             (di_line s) (shifted s)),
           (Z.lor (Z.land reg 0x3f) 0x80), [u8 0xff; u8 0xff].
    split; [| split; [| split; [| split; [| split]]]]; try assumption.
    + now apply DIT4192ReadReg_avr.
    + apply after_transaction_log.
    + rewrite sent_transaction.
      pose proof (read_command_byte reg) as Hc.
      now rewrite (u8_small (Z.lor (Z.land reg 0x3f) 0x80)) by lia.
    + rewrite Z.land_lor_distr_l, <- Z.land_assoc.
      change (Z.land 0x3f 0x3f) with 0x3f. change (Z.land 0x80 0x3f) with 0.
      apply Z.lor_0_r.
Qed.

Lemma command_byte_direction_witness :
  (exists s' new cmd rest,
      DIT4192WriteReg 17 0xC3 0x14 bench = Done tt s'
      /\ wire_log s' = wire_log bench ++ new
      /\ sent new = cmd :: rest
      /\ Z.testbit cmd 7 = false /\ Z.testbit cmd 6 = false
      /\ Z.land cmd 0x3f = Z.land 0xC3 0x3f)
  /\ (exists r s' new cmd rest,
      DIT4192ReadReg 17 0xC3 bench = Done r s'
      /\ wire_log s' = wire_log bench ++ new
      /\ sent new = cmd :: rest
      /\ Z.testbit cmd 7 = true /\ Z.testbit cmd 6 = false
      /\ Z.land cmd 0x3f = Z.land 0xC3 0x3f).
Proof.
  apply (command_byte_direction 17 0xC3 0x14 bench); [lia | reflexivity | lia].
Defined.

(** C6. Full-duplex exchange: with the clock idle low, [SPISend b] drives
    exactly eight clock pulses; at the rising edge of pulse [k] bit [7 - k]
    of [b] is on DO (most significant bit first) and the level of DI in that
    same pulse becomes bit [7 - k] of the byte returned. *)
Theorem byte_shifter_full_duplex (fuel : nat) (b : Z) (s : avr) :
  (17 <= fuel)%nat -> sck_pin s = false -> 0 <= b <= 255 ->
  exists r s' new,
    SPISend fuel b s = Done r s'
    /\ wire_log s' = wire_log s ++ new
    /\ new = flat_map (fun k => [ClockRise (cs_pin s)
                                           (Z.testbit b (7 - Z.of_nat k))
                                           (di_line s (k + shifted s)%nat);
                                 ClockFall (cs_pin s)])
                      (seq 0 8)
    /\ (forall k, (k < 8)%nat ->
          Z.testbit r (7 - Z.of_nat k) = di_line s (k + shifted s)%nat)
    /\ 0 <= r <= 255
    /\ sent new = [b]
    /\ answered new = [r].
Proof.
  intros Hfuel Hlow Hb.
  exists (received (di_line s) (shifted s)), (after_exchange b s),
         (exchange_wire (cs_pin s) b (di_line s) (shifted s)).
  split; [| split; [| split; [| split; [| split; [| split]]]]].
  - now apply SPISend_exchange.
  - reflexivity.
  - reflexivity.
  - intros k Hk. now apply received_bits.
  - pose proof (received_byte (di_line s) (shifted s)). lia.
  - rewrite <- (app_nil_r (exchange_wire _ _ _ _)), sent_exchange.
    now rewrite u8_small by lia.
  - now rewrite <- (app_nil_r (exchange_wire _ _ _ _)), answered_exchange.
Qed.

Lemma byte_shifter_full_duplex_witness :
  exists r s' new,
    SPISend 17 0xA5 bench = Done r s'
    /\ wire_log s' = wire_log bench ++ new
    /\ new = flat_map (fun k => [ClockRise (cs_pin bench)
                                           (Z.testbit 0xA5 (7 - Z.of_nat k))
                                           (di_line bench
                                                    (k + shifted bench)%nat);
                                 ClockFall (cs_pin bench)])
                      (seq 0 8)
    /\ (forall k, (k < 8)%nat ->
          Z.testbit r (7 - Z.of_nat k) = di_line bench (k + shifted bench)%nat)
    /\ 0 <= r <= 255
    /\ sent new = [0xA5]
    /\ answered new = [r].
Proof.
  apply (byte_shifter_full_duplex 17 0xA5 bench); [lia | reflexivity | lia].
Defined.

(** C7. Completion wait: on any device, when [SPISend] returns, the state it
    returns in shows the overflow flag, and every earlier poll saw it clear;
    and when the flag never comes up after the transfer is started, the
    loop uses up every bound on its iterations: [SPISend] never returns. *)
Theorem byte_shifter_waits_for_completion {D : Device} (b : Z) (s : mcu) :
  (forall fuel r s',
      SPISend fuel b s = Done r s' ->
      completed s' = true
      /\ exists n, (n < fuel)%nat
           /\ s' = strobes n (io_out USISR (_BV USIOIF) (io_out USIDR b s))
           /\ forall k, (k < n)%nat ->
                completed (strobes k (io_out USISR (_BV USIOIF)
                                             (io_out USIDR b s))) = false)
  /\ ((forall k,
          completed (strobes k (io_out USISR (_BV USIOIF) (io_out USIDR b s)))
          = false) ->
      forall fuel,
        SPISend fuel b s
        = Hang (strobes fuel (io_out USISR (_BV USIOIF) (io_out USIDR b s)))).
Proof.
  split.
  - intros fuel r s' H. rewrite SPISend_unfold in H.
    destruct (while fuel usi_busy (store USICR usi_strobe)
                (io_out USISR (_BV USIOIF) (io_out USIDR b s)))
      as [[] s1 | s1] eqn:Hloop; [| discriminate H].
    injection H as _ <-.
    destruct (poll_returns _ _ _ Hloop) as (n & Hn & Hs & Hd & Hbusy).
    split; [exact Hd |]. exists n. split; [exact Hn |]. split; assumption.
  - intros Hstuck fuel. rewrite SPISend_unfold.
    now rewrite (poll_hang fuel _ Hstuck).
Qed.

Lemma byte_shifter_waits_for_completion_witness :
  @SPISend dead_usi 1000 0xA5 tt = @Hang dead_usi Z tt.
Proof.
  exact (proj2 (@byte_shifter_waits_for_completion dead_usi 0xA5 tt)
               (fun k => eq_refl) 1000%nat).
Defined.

(** C8. No failure outcome: in every state of the device and for every
    argument, [DIT4192WriteReg] returns (its result is the unit value) and
    [DIT4192ReadReg] returns a byte; neither has another way to end. *)
Theorem transport_has_no_failure (fuel : nat) (reg value : Z) (s : avr) :
  (17 <= fuel)%nat ->
  (exists s', DIT4192WriteReg fuel reg value s = Done tt s')
  /\ (exists r s', DIT4192ReadReg fuel reg s = Done r s' /\ 0 <= r <= 255).
Proof.
  intro Hfuel. split.
  - unfold DIT4192WriteReg, bind.
    rewrite SELECT_avr, !SPISend_returns by exact Hfuel.
    rewrite DESELECT_avr. eexists. reflexivity.
  - unfold DIT4192ReadReg, bind.
    rewrite SELECT_avr, !SPISend_returns by exact Hfuel.
    rewrite DESELECT_avr. unfold ret. eexists. eexists. split; [reflexivity |].
    match goal with
    | |- 0 <= usidr (strobes 16 (armed ?b ?st)) <= 255 =>
        pose proof (strobes_usidr_byte 16 (armed b st)
                      (armed_usidr_byte b st))
    end.
    lia.
Qed.

Lemma transport_has_no_failure_witness :
  (exists s', DIT4192WriteReg 17 0xC3 0xFF bench = Done tt s')
  /\ (exists r s', DIT4192ReadReg 17 0xC3 bench = Done r s' /\ 0 <= r <= 255).
Proof.
  apply (transport_has_no_failure 17 0xC3 0xFF bench). lia.
Defined.

(** C9. Parked is terminal: whether the [sleep] instruction stops the core
    or retires (skipped, or woken again), and however long the core runs,
    [main] is stuck in one and the same state, [parked]; it never returns,
    and the recording made on the way holds the settle delay and exactly two
    select windows. *)
Theorem parked_is_terminal (fuel : nat) (s : avr) :
  (17 <= fuel)%nat -> sck_pin s = false ->
  main fuel s = Hang (parked s)
  /\ (forall more, main (fuel + more) s = Hang (parked s))
  /\ (avr_sleep (parked s) = None \/ avr_sleep (parked s) = Some (parked s))
  /\ exists after,
       wire_log (parked s) = wire_log s ++ ChipSelect true :: Idle 5 :: after
       /\ select_windows None 0 after = Some 2%nat.
Proof.
  intros Hfuel Hlow. split; [| split; [| split]].
  - now apply main_avr.
  - intro more. apply main_avr; [lia | exact Hlow].
  - unfold avr_sleep.
    destruct (Z.testbit (mcucr (parked s)) SE); [destruct (wakes (parked s)) |];
      auto.
  - eexists. split; [apply parked_log |].
    rewrite windows_transaction.
    rewrite <- (app_nil_r (transaction_wire _ _ _ _ _)), windows_transaction.
    reflexivity.
Qed.

Lemma parked_is_terminal_witness :
  main 17 bench = Hang (parked bench)
  /\ (forall more, main (17 + more) bench = Hang (parked bench))
  /\ (avr_sleep (parked bench) = None
      \/ avr_sleep (parked bench) = Some (parked bench))
  /\ exists after,
       wire_log (parked bench)
       = wire_log bench ++ ChipSelect true :: Idle 5 :: after
       /\ select_windows None 0 after = Some 2%nat.
Proof.
  apply (parked_is_terminal 17 bench); [lia | reflexivity].
Defined.

(** C10. Stale completion flag: whatever the overflow flag and the counter
    hold when [SPISend] is called, the store to [USISR] leaves the flag clear
    and the counter at zero before the loop is entered; the flag then stays
    clear for the first sixteen polls, and [SPISend] returns only in the
    state reached by sixteen strobes, that is after the eight clock pulses
    of the byte at hand. *)
Theorem stale_flag_is_cleared (fuel : nat) (b : Z) (s : avr) :
  (17 <= fuel)%nat ->
  usioif (armed b s) = false
  /\ usicnt (armed b s) = 0
  /\ (forall k, (k < 16)%nat -> completed (strobes k (armed b s)) = false)
  /\ completed (strobes 16 (armed b s)) = true
  /\ SPISend fuel b s
     = Done (usidr (strobes 16 (armed b s))) (strobes 16 (armed b s))
  /\ (sck_pin s = false ->
      wire_log (strobes 16 (armed b s))
      = wire_log s ++ exchange_wire (cs_pin s) b (di_line s) (shifted s)).
Proof.
  intro Hfuel. split; [| split; [| split; [| split; [| split]]]].
  - reflexivity.
  - reflexivity.
  - intros k Hk. now apply armed_busy.
  - apply armed_done.
  - now apply SPISend_returns.
  - intro Hlow. change 16%nat with (2 * 8)%nat.
    rewrite (strobes_clocked 7 (armed b s)) by exact Hlow.
    now rewrite armed_clocked.
Qed.

Lemma stale_flag_is_cleared_witness :
  usioif (after_exchange 0x03 bench) = true
  /\ usioif (armed 0xA5 (after_exchange 0x03 bench)) = false
  /\ usicnt (armed 0xA5 (after_exchange 0x03 bench)) = 0
  /\ (forall k, (k < 16)%nat ->
        completed (strobes k (armed 0xA5 (after_exchange 0x03 bench))) = false)
  /\ completed (strobes 16 (armed 0xA5 (after_exchange 0x03 bench))) = true
  /\ SPISend 17 0xA5 (after_exchange 0x03 bench)
     = Done (usidr (strobes 16 (armed 0xA5 (after_exchange 0x03 bench))))
            (strobes 16 (armed 0xA5 (after_exchange 0x03 bench)))
  /\ (sck_pin (after_exchange 0x03 bench) = false ->
      wire_log (strobes 16 (armed 0xA5 (after_exchange 0x03 bench)))
      = wire_log (after_exchange 0x03 bench)
        ++ exchange_wire (cs_pin (after_exchange 0x03 bench)) 0xA5
                         (di_line (after_exchange 0x03 bench))
                         (shifted (after_exchange 0x03 bench))).
Proof.
  split; [reflexivity |].
  apply (stale_flag_is_cleared 17 0xA5 (after_exchange 0x03 bench)). lia.
Defined.

(** ** Further properties of the code *)

(** X1. [SELECT] and [DESELECT] change bit [PB4] of [PORTB] and nothing else:
    the other seven bits, among them the clock bit that shares the port, keep
    their value, the recorder sees one store to chip-select and no clock
    edge, and no bit time is used up. *)
Theorem select_changes_only_chip_select (s : avr) :
  exists s0 s1,
    SELECT s = Done tt s0 /\ DESELECT s = Done tt s1
    /\ Z.testbit (portb s0) DIT4192_CS = false
    /\ Z.testbit (portb s1) DIT4192_CS = true
    /\ (forall k, 0 <= k < 8 -> k <> DIT4192_CS ->
          Z.testbit (portb s0) k = Z.testbit (portb s) k
          /\ Z.testbit (portb s1) k = Z.testbit (portb s) k)
    /\ wire_log s0 = wire_log s ++ [ChipSelect false]
    /\ wire_log s1 = wire_log s ++ [ChipSelect true]
    /\ shifted s0 = shifted s /\ shifted s1 = shifted s
    /\ usidr s0 = usidr s /\ usidr s1 = usidr s.
Proof.
  exists (selected s), (deselected s).
  split; [apply SELECT_avr |]. split; [apply DESELECT_avr |].
  split; [apply selected_cs |]. split; [apply deselected_cs |].
  split; [| repeat split].
  intros k Hk Hne. unfold selected, deselected. cbn [portb record set_portb].
  rewrite select_bits, deselect_bits by exact Hk.
  unfold DIT4192_CS, PB4 in Hne.
  destruct (Z.eqb_spec k 4) as [-> | _]; [contradiction |].
  cbn [negb]. now rewrite andb_true_r, orb_false_r.
Qed.

(** X4. Address aliasing: on any device the transport uses only the low six
    bits of the register number, so [reg], [reg + 64] and [reg & 0x3F] give
    the very same write and the very same read; an address outside 0..63 is
    not refused, it reaches another register. *)
Theorem register_numbers_alias {D : Device} (fuel : nat) (reg value : Z)
    (s : mcu) :
  DIT4192WriteReg fuel (reg + 64) value s = DIT4192WriteReg fuel reg value s
  /\ DIT4192ReadReg fuel (reg + 64) s = DIT4192ReadReg fuel reg s
  /\ DIT4192WriteReg fuel (Z.land reg 0x3f) value s
     = DIT4192WriteReg fuel reg value s
  /\ DIT4192ReadReg fuel (Z.land reg 0x3f) s = DIT4192ReadReg fuel reg s.
Proof.
  assert (H64 : Z.land (reg + 64) 0x3f = Z.land reg 0x3f).
  { change 0x3f with (Z.ones 6). rewrite !Z.land_ones by lia.
    change (2 ^ 6) with 64. rewrite <- (Z.mul_1_l 64) at 1.
    now rewrite Z.mod_add by lia. }
  assert (Hid : Z.land (Z.land reg 0x3f) 0x3f = Z.land reg 0x3f).
  { now rewrite <- Z.land_assoc. }
  unfold DIT4192WriteReg, DIT4192ReadReg. rewrite H64, Hid.
  repeat split.
Qed.

(** A computation that has no [Done] outcome. *)
Lemma bind_hangs {D : Device} {A B : Type} (m : M A) (k : A -> M B) :
  (forall a s, exists s', k a s = Hang s') ->
  forall s, exists s', bind m k s = Hang s'.
Proof.
  intros Hk s. unfold bind. destruct (m s) as [a s1 | s1].
  - apply Hk.
  - now exists s1.
Qed.

(** X7. On any device, whatever the serial unit and the [sleep] instruction
    do, [main] has no way to return: every run, of any length, is still
    inside [main]. *)
Theorem main_never_returns {D : Device} (fuel : nat) (s : mcu) :
  exists s', main fuel s = Hang s'.
Proof.
  unfold main.
  do 8 (apply bind_hangs; intros ? ?).
  unfold bind. rewrite spin_forever. eexists. reflexivity.
Qed.

(** X8. A byte shifter that never sees the completion flag leaves the
    transaction open: on any device, if the flag stays clear after the
    command byte is started, [DIT4192WriteReg] never returns, and the state
    it is stuck in is reached by the store that selects the chip, the two
    stores that start the transfer and strobes of the clock only; the store
    that deselects the chip is never made. *)
Theorem stuck_shifter_leaves_chip_selected {D : Device} (fuel : nat)
    (reg value : Z) (s : mcu) :
  (forall k,
      completed
        (strobes k
           (io_out USISR (_BV USIOIF)
              (io_out USIDR (Z.land reg 0x3f)
                 (io_out PORTB
                    (Z.land (io_in PORTB s) (Z.lnot (_BV DIT4192_CS))) s))))
      = false) ->
  DIT4192WriteReg fuel reg value s
  = Hang (strobes fuel
            (io_out USISR (_BV USIOIF)
               (io_out USIDR (Z.land reg 0x3f)
                  (io_out PORTB
                     (Z.land (io_in PORTB s) (Z.lnot (_BV DIT4192_CS))) s)))).
Proof.
  intro Hstuck. unfold DIT4192WriteReg. unfold bind at 1.
  unfold SELECT, bind at 1. unfold load at 1, store at 1.
  unfold bind at 1. rewrite SPISend_unfold.
  now rewrite (poll_hang fuel _ Hstuck).
Qed.

Lemma stuck_shifter_leaves_chip_selected_witness :
  @DIT4192WriteReg dead_usi 1000 0x03 0x14 tt = @Hang dead_usi unit tt.
Proof.
  exact (@stuck_shifter_leaves_chip_selected dead_usi 1000 0x03 0x14 tt
           (fun k => eq_refl)).
Defined.

Lemma received_constant (di : nat -> bool) (n : nat) (level : bool) :
  (forall k, di k = level) ->
  received di n = if level then 0xff else 0.
Proof.
  intro H. unfold received. cbn [map seq]. rewrite !H.
  now destruct level.
Qed.

(** X5. A silent line reads as a constant: if DI stays high for the whole
    access, as with no chip driving a pulled-up line, [DIT4192ReadReg]
    returns [0xFF] for every register, and if it stays low it returns [0];
    the transport reports neither case. *)
Theorem silent_line_reads_constant (fuel : nat) (reg : Z) (level : bool)
    (s : avr) :
  (17 <= fuel)%nat -> sck_pin s = false ->
  (forall k, di_line s k = level) ->
  exists s',
    DIT4192ReadReg fuel reg s = Done (if level then 0xff else 0) s'.
Proof.
  intros Hfuel Hlow Hdi.
  rewrite DIT4192ReadReg_avr by assumption.
  rewrite (received_constant _ _ level Hdi). eexists. reflexivity.
Qed.

Lemma silent_line_reads_constant_witness :
  exists s',
    DIT4192ReadReg 17 0x03 (power_on (fun _ => true) false) = Done 0xff s'.
Proof.
  apply (silent_line_reads_constant 17 0x03 true
           (power_on (fun _ => true) false));
    [lia | reflexivity | reflexivity].
Defined.

Lemma parked_mcucr (s : avr) :
  mcucr (parked s)
  = u8 (Z.lor (Z.land (mcucr s) (Z.lnot (Z.lor (_BV SM0) (_BV SM1))))
              SLEEP_MODE_PWR_DOWN).
Proof. reflexivity. Qed.

Lemma parked_sreg_i (s : avr) : sreg_i (parked s) = false.
Proof. reflexivity. Qed.

Lemma sleep_mode_bits (m k : Z) :
  0 <= k < 8 ->
  Z.testbit (u8 (Z.lor (Z.land m (Z.lnot (Z.lor (_BV SM0) (_BV SM1))))
                       SLEEP_MODE_PWR_DOWN)) k
  = if k =? SM1 then true else if k =? SM0 then false else Z.testbit m k.
Proof.
  intro Hk. rewrite u8_testbit, Z.lor_spec, Z.land_spec, Z.lnot_spec by lia.
  replace (k <? 8) with true by (symmetry; apply Z.ltb_lt; lia).
  assert (Hcases : k = 0 \/ k = 1 \/ k = 2 \/ k = 3 \/ k = 4 \/ k = 5
                   \/ k = 6 \/ k = 7) by lia.
  destruct Hcases as [-> | [-> | [-> | [-> | [-> | [-> | [-> | ->]]]]]]];
    cbn; rewrite ?andb_true_r, ?andb_false_r, ?orb_false_r, ?orb_true_r;
    reflexivity.
Qed.

(** X6. [main] selects the power-down sleep mode and turns interrupts off,
    but never touches the sleep enable bit: [SE] is left as it was found.
    From a core that has [SE] clear, as after reset, the [sleep] instruction
    therefore retires at once and it is the empty loop after it that holds
    the core. *)
Theorem sleep_is_never_enabled (fuel : nat) (s : avr) :
  (17 <= fuel)%nat -> sck_pin s = false ->
  main fuel s = Hang (parked s)
  /\ Z.testbit (mcucr (parked s)) SE = Z.testbit (mcucr s) SE
  /\ Z.testbit (mcucr (parked s)) SM1 = true
  /\ Z.testbit (mcucr (parked s)) SM0 = false
  /\ sreg_i (parked s) = false
  /\ (Z.testbit (mcucr s) SE = false ->
      sleep_cpu (parked s) = Done tt (parked s)).
Proof.
  intros Hfuel Hlow.
  assert (Hse : Z.testbit (mcucr (parked s)) SE = Z.testbit (mcucr s) SE).
  { rewrite parked_mcucr, sleep_mode_bits by (unfold SE; lia). reflexivity. }
  split; [now apply main_avr |]. split; [exact Hse |].
  split; [rewrite parked_mcucr, sleep_mode_bits by (unfold SM1; lia);
          reflexivity |].
  split; [rewrite parked_mcucr, sleep_mode_bits by (unfold SM0; lia);
          reflexivity |].
  split; [apply parked_sreg_i |].
  intro Hclear. unfold sleep_cpu. cbn [cpu_sleep tiny_usi]. unfold avr_sleep.
  now rewrite Hse, Hclear.
Qed.

Lemma sleep_is_never_enabled_witness :
  main 17 bench = Hang (parked bench)
  /\ Z.testbit (mcucr (parked bench)) SE = Z.testbit (mcucr bench) SE
  /\ Z.testbit (mcucr (parked bench)) SM1 = true
  /\ Z.testbit (mcucr (parked bench)) SM0 = false
  /\ sreg_i (parked bench) = false
  /\ (Z.testbit (mcucr bench) SE = false ->
      sleep_cpu (parked bench) = Done tt (parked bench)).
Proof.
  apply (sleep_is_never_enabled 17 bench); [lia | reflexivity].
Defined.

Lemma clocked_fields (k : nat) (s : avr) :
  usidr (clocked k s) = shifts (usidr s) (di_line s) (seq (shifted s) k)
  /\ wire_log (clocked k s)
     = wire_log s
       ++ clock_bits (cs_pin s) (usidr s) (di_line s) (seq (shifted s) k)
  /\ shifted (clocked k s) = (k + shifted s)%nat
  /\ portb (clocked k s) = portb s
  /\ di_line (clocked k s) = di_line s
  /\ ddrb (clocked k s) = ddrb s
  /\ mcucr (clocked k s) = mcucr s
  /\ sreg_i (clocked k s) = sreg_i s.
Proof. repeat split. Qed.

Lemma armed_fields (b : Z) (s : avr) :
  usidr (armed b s) = u8 b
  /\ wire_log (armed b s) = wire_log s
  /\ shifted (armed b s) = shifted s
  /\ portb (armed b s) = portb s
  /\ di_line (armed b s) = di_line s
  /\ ddrb (armed b s) = ddrb s
  /\ mcucr (armed b s) = mcucr s
  /\ sreg_i (armed b s) = sreg_i s.
Proof. repeat split. Qed.

Lemma toggle_twice (p : Z) : Z.lxor (Z.lxor p (_BV PB2)) (_BV PB2) = p.
Proof. now rewrite Z.lxor_assoc, Z.lxor_nilpotent, Z.lxor_0_r. Qed.

Lemma toggle_bit (p k : Z) :
  Z.testbit (Z.lxor p (_BV PB2)) k = xorb (Z.testbit p k) (k =? PB2).
Proof.
  rewrite Z.lxor_spec. f_equal.
  destruct (Z.neg_nonneg_cases k) as [Hn | Hn].
  - rewrite Z.testbit_neg_r by lia. symmetry. apply Z.eqb_neq. unfold PB2. lia.
  - change (_BV PB2) with (2 ^ 2). rewrite Z.pow2_bits_eqb by lia.
    apply Z.eqb_sym.
Qed.

Lemma inverted_edges (cs : bool) (b : Z) (di : nat -> bool) (n : nat) :
  [ClockFall cs]
    ++ clock_bits cs (u8 b) di (seq n 7)
    ++ [ClockRise cs (Z.testbit (shifts (u8 b) di (seq n 7)) 7)
                  (di (7 + n)%nat)]
  = exchange_wire_inverted cs b di n.
Proof.
  unfold exchange_wire_inverted, shifts.
  cbn [seq flat_map app clock_bits fold_left Nat.add].
  rewrite !shift_in_testbit by lia. rewrite !u8_testbit.
  reflexivity.
Qed.

Lemma shifts_last (b : Z) (di : nat -> bool) (n : nat) :
  shift_in (shifts (u8 b) di (seq n 7)) (di (7 + n)%nat) = received di n.
Proof.
  rewrite <- (shifts_received b). unfold shifts.
  replace (seq n 8) with (seq n 7 ++ [(7 + n)%nat])
    by (rewrite (Nat.add_comm 7 n); symmetry; apply seq_S).
  now rewrite fold_left_app.
Qed.

(** The byte shifter on the device, clock high on entry. *)
Lemma SPISend_inverted (fuel : nat) (b : Z) (s : avr) :
  (17 <= fuel)%nat -> sck_pin s = true ->
  exists s',
    SPISend fuel b s = Done (received (di_line s) (shifted s)) s'
    /\ wire_log s'
       = wire_log s
         ++ exchange_wire_inverted (cs_pin s) b (di_line s) (shifted s)
    /\ portb s' = portb s
    /\ shifted s' = (8 + shifted s)%nat
    /\ di_line s' = di_line s
    /\ ddrb s' = ddrb s /\ mcucr s' = mcucr s /\ sreg_i s' = sreg_i s.
Proof.
  intros Hfuel Hhigh. rewrite SPISend_returns by exact Hfuel.
  destruct (armed_fields b s) as (Hu & Hl & Hn & Hp & Hd & Hdd & Hm & Hi).
  assert (Hhigh0 : sck_pin (armed b s) = true)
    by (unfold sck_pin in *; now rewrite Hp).
  assert (Hcs0 : cs_pin (armed b s) = cs_pin s)
    by (unfold cs_pin; now rewrite Hp).
  generalize dependent (armed b s).
  intros s0 Hu Hl Hn Hp Hd Hdd Hm Hi Hhigh0 Hcs0.
  change 16%nat with (1 + (2 * 7 + 1))%nat.
  rewrite !strobes_add. cbn [strobes io_out tiny_usi].
  rewrite (strobe_fall s0 Hhigh0).
  match goal with
  | |- context [strobes (2 * 7) ?st] => set (s1 := st)
  end.
  assert (Hlow1 : sck_pin s1 = false).
  { unfold sck_pin, s1. cbn [portb]. rewrite toggle_bit.
    unfold sck_pin in Hhigh0. now rewrite Hhigh0. }
  assert (Hcs1 : cs_pin s1 = cs_pin s).
  { unfold cs_pin, s1. cbn [portb]. rewrite toggle_bit.
    change (PB4 =? PB2) with false. rewrite xorb_false_r.
    exact Hcs0. }
  assert (F1 : usidr s1 = u8 b /\ di_line s1 = di_line s
               /\ shifted s1 = shifted s
               /\ wire_log s1 = wire_log s ++ [ClockFall (cs_pin s)]
               /\ portb s1 = Z.lxor (portb s) (_BV PB2)
               /\ ddrb s1 = ddrb s /\ mcucr s1 = mcucr s
               /\ sreg_i s1 = sreg_i s).
  { unfold s1. cbn [usidr di_line shifted wire_log portb ddrb mcucr sreg_i].
    rewrite Hu, Hd, Hn, Hl, Hp, Hdd, Hm, Hi, Hcs0. repeat split. }
  destruct F1 as (Fu & Fd & Fn & Fl & Fp & Fdd & Fm & Fi).
  clearbody s1.
  rewrite (strobes_clocked 6 s1 Hlow1).
  destruct (clocked_fields 7 s1) as (Cu & Cl & Cn & Cp & Cd & Cdd & Cm & Ci).
  assert (Hlow2 : sck_pin (clocked 7 s1) = false)
    by (unfold sck_pin in *; now rewrite Cp).
  assert (Hcs2 : cs_pin (clocked 7 s1) = cs_pin s1)
    by (unfold cs_pin; now rewrite Cp).
  rewrite (strobe_rise (clocked 7 s1) Hlow2).
  rewrite Cu, Cl, Cn, Cp, Cd, Cdd, Cm, Ci, Hcs2.
  rewrite Fu, Fd, Fn, Fl, Fp, Fdd, Fm, Fi, Hcs1.
  cbn [usidr]. rewrite shifts_last, toggle_twice.
  eexists. split; [reflexivity |].
  cbn [wire_log portb shifted di_line ddrb mcucr sreg_i].
  split; [| repeat split].
  rewrite <- !app_assoc. f_equal. apply inverted_edges.
Qed.

Lemma sent_inverted (cs : bool) (b : Z) (di : nat -> bool) (n : nat) :
  sent (exchange_wire_inverted cs b di n) = [u8 b].
Proof.
  unfold sent, mosi_bits, exchange_wire_inverted.
  cbn [seq flat_map app bytes_msb_first].
  now rewrite <- byte_of_testbits.
Qed.

(** X2. The byte shifter gives the port back as it found it: in every state
    of the device, after [SPISend] the registers [PORTB], [DDRB] and [MCUCR]
    and the interrupt flag hold what they held before; the sixteen toggles
    of the clock bit cancel, and chip-select is not moved. *)
Theorem byte_shifter_restores_port (fuel : nat) (b : Z) (s : avr) :
  (17 <= fuel)%nat ->
  exists r s',
    SPISend fuel b s = Done r s'
    /\ portb s' = portb s /\ ddrb s' = ddrb s /\ mcucr s' = mcucr s
    /\ sreg_i s' = sreg_i s
    /\ cs_pin s' = cs_pin s /\ sck_pin s' = sck_pin s.
Proof.
  intro Hfuel. destruct (sck_pin s) eqn:Hpin.
  - destruct (SPISend_inverted fuel b s Hfuel Hpin)
      as (s' & Hrun & _ & Hp & _ & _ & Hdd & Hm & Hi).
    exists (received (di_line s) (shifted s)), s'.
    split; [exact Hrun |]. split; [exact Hp |]. split; [exact Hdd |].
    split; [exact Hm |]. split; [exact Hi |].
    unfold cs_pin, sck_pin in *. rewrite Hp. now split.
  - exists (received (di_line s) (shifted s)), (after_exchange b s).
    split; [now apply SPISend_exchange |].
    split; [reflexivity |]. split; [reflexivity |]. split; [reflexivity |].
    split; [reflexivity |]. split; [reflexivity | exact Hpin].
Qed.

Lemma byte_shifter_restores_port_witness :
  exists r s',
    SPISend 17 0xA5 (selected bench) = Done r s'
    /\ portb s' = portb (selected bench) /\ ddrb s' = ddrb (selected bench)
    /\ mcucr s' = mcucr (selected bench)
    /\ sreg_i s' = sreg_i (selected bench)
    /\ cs_pin s' = cs_pin (selected bench)
    /\ sck_pin s' = sck_pin (selected bench).
Proof.
  apply (byte_shifter_restores_port 17 0xA5 (selected bench)). lia.
Defined.

(** X3. What [SPISend] returns is the byte DI carried during the eight bit
    times of the exchange and nothing else: in every state of the device,
    whatever byte is sent, whatever the data register held and whichever
    level the clock line had, the result is that byte, and eight bit times
    of the line are used up. *)
Theorem byte_shifter_returns_line_byte (fuel : nat) (b : Z) (s : avr) :
  (17 <= fuel)%nat ->
  exists s',
    SPISend fuel b s = Done (received (di_line s) (shifted s)) s'
    /\ shifted s' = (8 + shifted s)%nat
    /\ di_line s' = di_line s.
Proof.
  intro Hfuel. destruct (sck_pin s) eqn:Hpin.
  - destruct (SPISend_inverted fuel b s Hfuel Hpin)
      as (s' & Hrun & _ & _ & Hn & Hd & _).
    exists s'. split; [exact Hrun |]. now split.
  - exists (after_exchange b s).
    split; [now apply SPISend_exchange |]. now split.
Qed.

Lemma byte_shifter_returns_line_byte_witness :
  exists s',
    SPISend 17 0xA5 bench = Done (received (di_line bench) (shifted bench)) s'
    /\ shifted s' = (8 + shifted bench)%nat
    /\ di_line s' = di_line bench.
Proof.
  apply (byte_shifter_returns_line_byte 17 0xA5 bench). lia.
Defined.

(** X9. Clock high on entry: [SPISend] does not put the clock line low
    before it starts.  Called with the line high it still sends [b] most
    significant bit first and returns the byte DI carried, but each of the
    eight pulses falls first and rises after, and the line is left high. *)
Theorem byte_shifter_with_clock_high (fuel : nat) (b : Z) (s : avr) :
  (17 <= fuel)%nat -> sck_pin s = true -> 0 <= b <= 255 ->
  exists s' new,
    SPISend fuel b s = Done (received (di_line s) (shifted s)) s'
    /\ wire_log s' = wire_log s ++ new
    /\ new = flat_map (fun k => [ClockFall (cs_pin s);
                                 ClockRise (cs_pin s)
                                           (Z.testbit b (7 - Z.of_nat k))
                                           (di_line s (k + shifted s)%nat)])
                      (seq 0 8)
    /\ sent new = [b]
    /\ sck_pin s' = true.
Proof.
  intros Hfuel Hhigh Hb.
  destruct (SPISend_inverted fuel b s Hfuel Hhigh)
    as (s' & Hrun & Hlog & Hp & _).
  exists s', (exchange_wire_inverted (cs_pin s) b (di_line s) (shifted s)).
  split; [exact Hrun |]. split; [exact Hlog |]. split; [reflexivity |].
  split.
  - rewrite sent_inverted. now rewrite u8_small by lia.
  - unfold sck_pin in *. now rewrite Hp.
Qed.

Lemma byte_shifter_with_clock_high_witness :
  exists s' new,
    SPISend 17 0xA5 (set_portb 0x04 bench)
    = Done (received (di_line (set_portb 0x04 bench))
                     (shifted (set_portb 0x04 bench))) s'
    /\ wire_log s' = wire_log (set_portb 0x04 bench) ++ new
    /\ new = flat_map (fun k => [ClockFall (cs_pin (set_portb 0x04 bench));
                                 ClockRise (cs_pin (set_portb 0x04 bench))
                                           (Z.testbit 0xA5 (7 - Z.of_nat k))
                                           (di_line (set_portb 0x04 bench)
                                              (k + shifted
                                                     (set_portb 0x04 bench))%nat)])
                      (seq 0 8)
    /\ sent new = [0xA5]
    /\ sck_pin s' = true.
Proof.
  apply (byte_shifter_with_clock_high 17 0xA5 (set_portb 0x04 bench));
    [lia | reflexivity | lia].
Defined.

Lemma after_transaction_port (b0 b1 b2 : Z) (s : avr) (k : Z) :
  0 <= k < 8 ->
  Z.testbit (portb (after_transaction b0 b1 b2 s)) k
  = Z.testbit (portb s) k || (k =? DIT4192_CS).
Proof.
  intro Hk. unfold after_transaction. cbn [portb].
  rewrite Z.lor_spec, u8_testbit.
  replace (k <? 8) with true by (symmetry; apply Z.ltb_lt; lia).
  change (_BV DIT4192_CS) with (2 ^ 4). rewrite Z.pow2_bits_eqb by lia.
  now rewrite (Z.eqb_sym 4 k).
Qed.

(** X10. What a register access leaves behind: after [DIT4192WriteReg] or
    [DIT4192ReadReg] chip-select is high, also when it was low on entry, the
    clock line is low again, every other bit of [PORTB] and the registers
    [DDRB] and [MCUCR] are as before, and exactly 24 bit times of the line
    have been used; so the next access finds what it needs. *)
Theorem transaction_leaves_bus_idle (fuel : nat) (t : transfer) (s : avr) :
  (17 <= fuel)%nat -> sck_pin s = false ->
  exists s',
    run_transfer fuel t s = Done tt s'
    /\ cs_pin s' = true /\ sck_pin s' = false
    /\ (forall k, 0 <= k < 8 -> k <> DIT4192_CS ->
          Z.testbit (portb s') k = Z.testbit (portb s) k)
    /\ ddrb s' = ddrb s /\ mcucr s' = mcucr s
    /\ shifted s' = (24 + shifted s)%nat.
Proof.
  intros Hfuel Hlow.
  assert (Hstep : exists b0 b1 b2,
             run_transfer fuel t s = Done tt (after_transaction b0 b1 b2 s)).
  { destruct t as [reg value | reg]; cbn [run_transfer].
    - exists (Z.land reg 0x3f), 0xff, value. now apply DIT4192WriteReg_avr.
    - exists (Z.lor (Z.land reg 0x3f) 0x80), 0xff, 0xff.
      unfold bind. now rewrite DIT4192ReadReg_avr. }
  destruct Hstep as (b0 & b1 & b2 & Hrun).
  exists (after_transaction b0 b1 b2 s).
  split; [exact Hrun |]. split; [apply after_transaction_cs |].
  split; [now rewrite after_transaction_sck |].
  split; [| split; [reflexivity | split; reflexivity]].
  intros k Hk Hne. rewrite after_transaction_port by exact Hk.
  destruct (Z.eqb_spec k DIT4192_CS); [contradiction | apply orb_false_r].
Qed.

Lemma transaction_leaves_bus_idle_witness :
  exists s',
    run_transfer 17 (ReadOp 0x03) (selected bench) = Done tt s'
    /\ cs_pin s' = true /\ sck_pin s' = false
    /\ (forall k, 0 <= k < 8 -> k <> DIT4192_CS ->
          Z.testbit (portb s') k = Z.testbit (portb (selected bench)) k)
    /\ ddrb s' = ddrb (selected bench) /\ mcucr s' = mcucr (selected bench)
    /\ shifted s' = (24 + shifted (selected bench))%nat.
Proof.
  apply (transaction_leaves_bus_idle 17 (ReadOp 0x03) (selected bench));
    [lia | reflexivity].
Defined.
